(** * LD06 LIDAR visualiser: a shallow embedding of [visualise.py]

    The development follows the source file top to bottom:

    - the Python values the code computes with: exceptions, binary64
      floats (the Standard Library's [SpecFloat], instantiated at
      precision 53), text and the builtins [float], [int], [round],
      [str.strip], [str.split], [str.startswith], [min];
    - the insertion-ordered dictionary [self.points];
    - class [LidarVisualiser]: [__init__], [connect], [read_points],
      [get_polar_data];
    - the animation callback [update] of [main];
    - the properties of the ingestion pipeline.

    Text is a [string] whose characters are read as the code points
    0..255; a serial port is the queue of the results its pending
    [readline] calls will give. *)

From Stdlib Require Import ZArith List String Ascii Bool Lia.
From Stdlib Require Import SpecFloat.
Import ListNotations.

Local Open Scope Z_scope.

(** ** Exceptions and fallible computations *)

Inductive exn : Type :=
| ValueError
| OverflowError
| SerialException.

Inductive result (A : Type) : Type :=
| Ok (a : A)
| Raise (e : exn).

Arguments Ok {A} a.
Arguments Raise {A} e.

Definition bind {A B : Type} (r : result A) (k : A -> result B) : result B :=
  match r with
  | Ok a => k a
  | Raise e => Raise e
  end.

Notation "x <- r ;; k" := (bind r (fun x => k))
  (at level 61, r at next level, right associativity).

(** ** Python floats *)

Module PyFloat.

Definition prec : Z := 53.
Definition emax : Z := 1024.

Definition float : Type := spec_float.

Definition mul : float -> float -> float := SFmul prec emax.
Definition div : float -> float -> float := SFdiv prec emax.
Definition eqb : float -> float -> bool := SFeqb.
Definition ltb : float -> float -> bool := SFltb.
Definition leb : float -> float -> bool := SFleb.

(** An [int] operand of a float operation is first converted to the
    nearest float. *)
Definition of_int (k : Z) : float := binary_normalize prec emax k 0 false.

(** [m * 10 ** e] rounded once to the nearest float, ties to even; the
    value of a decimal literal. *)
Definition of_decimal (neg : bool) (m : Z) (e : Z) : float :=
  match m with
  | Zpos p =>
      if 0 <=? e
      then binary_normalize prec emax (if neg then Zneg p * 10 ^ e else Zpos p * 10 ^ e) 0 false
      else div (S754_finite neg p 0) (S754_finite false (Z.to_pos (10 ^ (- e))) 0)
  | _ => S754_zero neg
  end.

(** The nearest integer to [m * 2 ** e], ties to the even one. *)
Definition round_half_even (m : positive) (e : Z) : Z :=
  if 0 <=? e then Zpos m * 2 ^ e
  else
    let d := 2 ^ (- e) in
    let q := Zpos m / d in
    let r := Zpos m mod d in
    match 2 * r ?= d with
    | Lt => q
    | Gt => q + 1
    | Eq => if Z.even q then q else q + 1
    end.

(** [round(x)] with one argument: an [int]. *)
Definition round (x : float) : result Z :=
  match x with
  | S754_zero _ => Ok 0
  | S754_finite s m e =>
      Ok (if s then - round_half_even m e else round_half_even m e)
  | S754_infinity _ => Raise OverflowError
  | S754_nan => Raise ValueError
  end.

(** [k / 2] on an [int] [k]: the float nearest to the exact quotient,
    [OverflowError] when that is beyond the largest float. *)
Definition int_truediv2 (k : Z) : result float :=
  match binary_normalize prec emax k (-1) false with
  | S754_zero s => Ok (S754_zero s)
  | S754_finite s m e => Ok (S754_finite s m e)
  | S754_infinity _ | S754_nan => Raise OverflowError
  end.

(** [min(a, b)] of two arguments: [b] when [b < a], else [a]. *)
Definition min (a b : float) : float := if ltb b a then b else a.

(** [math.radians]: CPython multiplies by the double [pi / 180.0]. *)
Definition pi : float := S754_finite false 7074237752028440 (-51).
Definition degToRad : float := div pi (of_int 180).
Definition radians (x : float) : float := mul x degToRad.

End PyFloat.

Abbreviation float := PyFloat.float.

(** ** Python text *)

Module PyStr.

Definition code (c : ascii) : Z := Z.of_N (N_of_ascii c).

(** [str.isspace] on the code points below 256. *)
Definition is_space (c : ascii) : bool :=
  let n := code c in
  ((9 <=? n) && (n <=? 13)) || ((28 <=? n) && (n <=? 32))
  || (n =? 133) || (n =? 160).

Definition is_digit (c : ascii) : bool :=
  let n := code c in (48 <=? n) && (n <=? 57).

Definition digit_val (c : ascii) : Z := code c - 48.

(** The white space [int] and [float] skip around a literal: the
    code points 28..31 are not part of it. *)
Definition is_literal_space (c : ascii) : bool :=
  let n := code c in
  ((9 <=? n) && (n <=? 13)) || (n =? 32) || (n =? 133) || (n =? 160).

Fixpoint lstrip (sp : ascii -> bool) (s : string) : string :=
  match s with
  | EmptyString => EmptyString
  | String c s' => if sp c then lstrip sp s' else s
  end.

Fixpoint rstrip (sp : ascii -> bool) (s : string) : string :=
  match s with
  | EmptyString => EmptyString
  | String c s' =>
      match rstrip sp s' with
      | EmptyString => if sp c then EmptyString else String c EmptyString
      | r => String c r
      end
  end.

(** [s.strip()] *)
Definition strip (s : string) : string := rstrip is_space (lstrip is_space s).

(** What [int] and [float] read of their argument. *)
Definition literal (s : string) : string :=
  rstrip is_literal_space (lstrip is_literal_space s).

(** [s.startswith(p)] *)
Definition startswith (p s : string) : bool := prefix p s.

(** [s.split(sep)] for a one-character separator. *)
Fixpoint split (sep : ascii) (s : string) : list string :=
  match s with
  | EmptyString => [EmptyString]
  | String c s' =>
      if Ascii.eqb c sep then EmptyString :: split sep s'
      else match split sep s' with
           | p :: ps => String c p :: ps
           | [] => [String c EmptyString]
           end
  end.

(** Underscores in a numeric literal: each one stands between two
    digits.  [prev] tells whether the previous character was a digit,
    [us] whether it was an underscore.  The result is the text without
    its underscores. *)
Fixpoint drop_underscores (prev us : bool) (s : string) : option string :=
  match s with
  | EmptyString => if us then None else Some EmptyString
  | String c s' =>
      if Ascii.eqb c "_"%char
      then if prev then drop_underscores false true s' else None
      else if us && negb (is_digit c) then None
      else option_map (String c) (drop_underscores (is_digit c) false s')
  end.

(** A leading run of decimal digits: its value, its length and the
    rest of the text. *)
Fixpoint digits (acc : Z) (n : Z) (s : string) : Z * Z * string :=
  match s with
  | String c s' =>
      if is_digit c then digits (10 * acc + digit_val c) (n + 1) s'
      else (acc, n, s)
  | EmptyString => (acc, n, s)
  end.

(** An optional sign: [true] for [-]. *)
Definition sign (s : string) : bool * string :=
  match s with
  | String "-"%char s' => (true, s')
  | String "+"%char s' => (false, s')
  | _ => (false, s)
  end.

Definition lower (c : ascii) : ascii :=
  let n := code c in
  if (65 <=? n) && (n <=? 90) then ascii_of_N (Z.to_N (n + 32)) else c.

Fixpoint lowercase (s : string) : string :=
  match s with
  | EmptyString => EmptyString
  | String c s' => String (lower c) (lowercase s')
  end.

End PyStr.

(** The interpreter's default limit on the digits of a decimal [int]
    literal. *)
Definition int_max_str_digits : Z := 4300.

(** [int(s)] on text, base 10. *)
Definition py_int (s : string) : result Z :=
  match PyStr.drop_underscores false false (PyStr.literal s) with
  | None => Raise ValueError
  | Some t =>
      let '(neg, body) := PyStr.sign t in
      match PyStr.digits 0 0 body with
      | (v, n, EmptyString) =>
          if (n =? 0) || (int_max_str_digits <? n) then Raise ValueError
          else Ok (if neg then - v else v)
      | _ => Raise ValueError
      end
  end.

(** The exponent part of a decimal literal; the text is taken as a whole
    or not at all. *)
Definition py_exponent (s : string) : option Z :=
  match s with
  | EmptyString => Some 0
  | String c s' =>
      if Ascii.eqb (PyStr.lower c) "e"%char then
        let '(neg, body) := PyStr.sign s' in
        match PyStr.digits 0 0 body with
        | (v, n, EmptyString) =>
            if n =? 0 then None else Some (if neg then - v else v)
        | _ => None
        end
      else None
  end.

(** [float(s)] on text. *)
Definition py_float (s : string) : result float :=
  match PyStr.drop_underscores false false (PyStr.literal s) with
  | None => Raise ValueError
  | Some t =>
      let '(neg, body) := PyStr.sign t in
      let word := PyStr.lowercase body in
      if String.eqb word "inf"%string || String.eqb word "infinity"%string
      then Ok (S754_infinity neg)
      else if String.eqb word "nan"%string then Ok S754_nan
      else
        let '(i, ni, rest) := PyStr.digits 0 0 body in
        let '(m, nf, rest') :=
          match rest with
          | String "."%char r =>
              let '(m, n, r') := PyStr.digits i 0 r in (m, n, r')
          | _ => (i, 0, rest)
          end in
        if ni + nf =? 0 then Raise ValueError
        else match py_exponent rest' with
             | Some x => Ok (PyFloat.of_decimal neg m (x - nf))
             | None => Raise ValueError
             end
  end.

(** ** The dictionary [self.points]

    A Python [dict] keeps its entries in insertion order; a key that
    compares equal to a stored one takes that entry's place and leaves
    the stored key where it is. *)

Module Dict.

Definition t : Type := list (float * (Z * Z)).

(** [d[k] = v] *)
Fixpoint set (k : float) (v : Z * Z) (d : t) : t :=
  match d with
  | [] => [(k, v)]
  | (k', v') :: d' =>
      if PyFloat.eqb k' k then (k', v) :: d' else (k', v') :: set k v d'
  end.

Definition keys (d : t) : list float := map fst d.
Definition values (d : t) : list (Z * Z) := map snd d.

(** [len(d)] *)
Definition len (d : t) : Z := Z.of_nat (List.length d).

End Dict.

(** ** The serial port

    What the port will hand to the next calls of [readline]: a line of
    text, already decoded, or a [SerialException].  [in_waiting] is zero
    exactly when nothing is pending. *)

Inductive read_event : Type :=
| Received (raw : string)
| Failed.

Definition Serial : Type := list read_event.

(** ** class LidarVisualiser *)

Record LidarVisualiser : Type := mkLidarVisualiser {
  port : string;
  baud : Z;
  ser : option Serial;
  points : Dict.t;
  max_distance : Z;
  point_count : Z
}.

Definition with_ser (s : option Serial) (self : LidarVisualiser) : LidarVisualiser :=
  mkLidarVisualiser (port self) (baud self) s (points self)
                    (max_distance self) (point_count self).

Definition with_point (k : float) (v : Z * Z) (self : LidarVisualiser)
  : LidarVisualiser :=
  mkLidarVisualiser (port self) (baud self) (ser self)
                    (Dict.set k v (points self))
                    (max_distance self) (point_count self + 1).

(** [__init__] *)
Definition init (port : string) (baud : Z) : LidarVisualiser :=
  mkLidarVisualiser port baud None [] 8000 0.

(** [connect]: [opened] is what [serial.Serial(...)] gives, [None] for a
    [SerialException]. *)
Definition connect (opened : option Serial) (self : LidarVisualiser)
  : LidarVisualiser * bool :=
  match opened with
  | Some s => (with_ser (Some s) self, true)
  | None => (self, false)
  end.

(** The angle bin of a parsed angle: [round(angle * 2) / 2]. *)
Definition angle_bin (angle : float) : result float :=
  k <- PyFloat.round (PyFloat.mul angle (PyFloat.of_int 2)) ;;
  PyFloat.int_truediv2 k.

(** The first four statements of the inner [try] of [read_points], on
    the three fields of a line: the bin, the distance and the
    confidence, or the exception one of them raises. *)
Definition parse_fields (p0 p1 p2 : string) : result (float * Z * Z) :=
  angle <- py_float p0 ;;
  distance <- py_int p1 ;;
  confidence <- py_int p2 ;;
  bin <- angle_bin angle ;;
  Ok (bin, distance, confidence).

(** The inner [try] block without its handler: the object afterwards and
    how the block ended. *)
Definition store_fields (self : LidarVisualiser) (p0 p1 p2 : string)
  : LidarVisualiser * result unit :=
  match parse_fields p0 p1 p2 with
  | Raise e => (self, Raise e)
  | Ok (bin, distance, confidence) =>
      if (0 <=? distance) && (distance <=? max_distance self)
      then (with_point bin (distance, confidence) self, Ok tt)
      else (self, Ok tt)
  end.

(** The body of the [while] loop of [read_points] on one stripped line;
    [Ok] covers both the stored record and each [continue]. *)
Definition process_line (self : LidarVisualiser) (line : string)
  : LidarVisualiser * result unit :=
  if String.eqb line EmptyString || PyStr.startswith "LD06" line
  then (self, Ok tt)
  else
    match PyStr.split ","%char line with
    | [p0; p1; p2] =>
        match store_fields self p0 p1 p2 with
        | (self', Raise ValueError) => (self', Ok tt)
        | r => r
        end
    | _ => (self, Ok tt)
    end.

(** The [while self.ser.in_waiting] loop: what is left pending, the
    object, and the exception that ended the loop if one did. *)
Fixpoint drain (pending : Serial) (self : LidarVisualiser)
  : Serial * LidarVisualiser * option exn :=
  match pending with
  | [] => ([], self, None)
  | Failed :: rest => (rest, self, Some SerialException)
  | Received raw :: rest =>
      match process_line self (PyStr.strip raw) with
      | (self', Ok _) => drain rest self'
      | (self', Raise e) => (rest, self', Some e)
      end
  end.

(** [read_points] *)
Definition read_points (self : LidarVisualiser) : LidarVisualiser * result unit :=
  match ser self with
  | None => (self, Ok tt)
  | Some pending =>
      let '(rest, self', stop) := drain pending self in
      let self'' := with_ser (Some rest) self' in
      match stop with
      | None => (self'', Ok tt)
      | Some SerialException => (self'', Ok tt)
      | Some e => (self'', Raise e)
      end
  end.

(** The three arrays of a snapshot. *)
Definition polar : Type := list float * list Z * list Z.

(** [get_polar_data] *)
Definition get_polar_data (self : LidarVisualiser) : LidarVisualiser * polar :=
  match points self with
  | [] => (self, ([], [], []))
  | items =>
      (self,
       fold_left
         (fun '(angles, distances, confidences) '(angle, (dist, conf)) =>
            (angles ++ [PyFloat.radians angle],
             distances ++ [dist],
             confidences ++ [conf]))
         items ([], [], []))
  end.

(** ** The animation callback of [main] *)

Record Window : Type := mkWindow {
  vis : LidarVisualiser;
  rmax : float;
  offsets : list (float * Z);
  colours : list Z;
  count_text : option Z
}.

(** The state [main] builds before the animation starts, for a port that
    opened. *)
Definition main_window (port : string) (opened : Serial) : Window :=
  mkWindow (fst (connect (Some opened) (init port 921600)))
           (PyFloat.of_int 4000) [] [] None.

(** [np.max] of a non-empty array. *)
Definition np_max (a : list Z) : Z :=
  match a with
  | [] => 0
  | x :: a' => fold_left Z.max a' x
  end.

(** The literal [1.1]. *)
Definition float_1_1 : float := PyFloat.of_decimal false 11 (-1).

(** The radial limit after the auto-scale step on the array
    [distances]. *)
Definition auto_scale (distances : list Z) (limit : float) : float :=
  let max_dist := np_max distances in
  if PyFloat.ltb limit (PyFloat.of_int max_dist)
  then PyFloat.min (PyFloat.mul (PyFloat.of_int max_dist) float_1_1)
                   (PyFloat.of_int 8000)
  else limit.

(** [update(frame)] *)
Definition update (w : Window) : Window * result unit :=
  match read_points (vis w) with
  | (v, Raise e) =>
      (mkWindow v (rmax w) (offsets w) (colours w) (count_text w), Raise e)
  | (v, Ok _) =>
      let '(v', (angles, distances, confidences)) := get_polar_data v in
      let shown := Some (Dict.len (points v')) in
      if 0 <? Z.of_nat (List.length angles)
      then (mkWindow v' (auto_scale distances (rmax w))
                     (combine angles distances) confidences shown, Ok tt)
      else (mkWindow v' (rmax w) (offsets w) (colours w) shown, Ok tt)
  end.

(** Events reaching the port between two calls. *)
Definition feed (evs : Serial) (self : LidarVisualiser) : LidarVisualiser :=
  match ser self with
  | Some pending => with_ser (Some (pending ++ evs)) self
  | None => self
  end.

Definition arrive (evs : Serial) (w : Window) : Window :=
  mkWindow (feed evs (vis w)) (rmax w) (offsets w) (colours w) (count_text w).

(** The object after a series of calls of [read_points]; [arrivals]
    gives what reaches the port before each call. *)
Fixpoint polls (arrivals : list Serial) (self : LidarVisualiser)
  : LidarVisualiser :=
  match arrivals with
  | [] => self
  | evs :: rest => polls rest (fst (read_points (feed evs self)))
  end.

(** The windows after each tick of a run; [arrivals] gives what reaches
    the port before each tick. *)
Fixpoint ticks (arrivals : list Serial) (w : Window) : list Window :=
  match arrivals with
  | [] => []
  | evs :: rest =>
      let w' := fst (update (arrive evs w)) in
      w' :: ticks rest w'
  end.

(** ** Vocabulary of the properties *)

(** The records a fresh object is given: [main] connects it once. *)
Definition connected (port : string) (baud : Z) (opened : Serial)
  : LidarVisualiser :=
  fst (connect (Some opened) (init port baud)).

(** What a raw line stands for when [read_points] stores it: the line
    is not empty, is no banner, has three fields that all parse, its bin
    can be computed and its distance is within [0, max]. *)
Definition record_of (max : Z) (raw : string) : option (float * (Z * Z)) :=
  let line := PyStr.strip raw in
  if String.eqb line EmptyString || PyStr.startswith "LD06" line then None
  else
    match PyStr.split ","%char line with
    | [p0; p1; p2] =>
        match parse_fields p0 p1 p2 with
        | Ok (bin, distance, confidence) =>
            if (0 <=? distance) && (distance <=? max)
            then Some (bin, (distance, confidence))
            else None
        | Raise _ => None
        end
    | _ => None
    end.

(** The records of a series of lines, oldest first. *)
Fixpoint records_of (max : Z) (raws : list string) : list (float * (Z * Z)) :=
  match raws with
  | [] => []
  | raw :: rest =>
      match record_of max raw with
      | Some r => r :: records_of max rest
      | None => records_of max rest
      end
  end.

(** The measurement of the most recent record for bin [b]. *)
Definition latest (b : float) (recs : list (float * (Z * Z))) : option (Z * Z) :=
  option_map snd (find (fun r => PyFloat.eqb (fst r) b) (rev recs)).

(** The measurements the map holds for bin [b], one per entry whose key
    equals [b]. *)
Definition entries (b : float) (d : Dict.t) : list (Z * Z) :=
  map snd (filter (fun kv => PyFloat.eqb (fst kv) b) d).

(** Twice the float is an integer: the float is a multiple of 0.5. *)
Definition half_multiple (x : float) : bool :=
  match x with
  | S754_zero _ => true
  | S754_finite _ m e => (-1 <=? e) || (Zpos m mod 2 ^ (-1 - e) =? 0)
  | _ => false
  end.


(** The 720 bins of one rotation: [k / 2] for [k] from 0 to 719. *)
Definition legal_bins : list float :=
  map (fun k => PyFloat.div (PyFloat.of_int (Z.of_nat k)) (PyFloat.of_int 2))
      (seq 0 720).

Definition legal_bin (b : float) : bool := existsb (PyFloat.eqb b) legal_bins.

(** The bin [read_points] computes for a raw line, when it gets that
    far. *)
Definition line_bin (raw : string) : option float :=
  match PyStr.split ","%char (PyStr.strip raw) with
  | [p0; p1; p2] =>
      match parse_fields p0 p1 p2 with
      | Ok (bin, _, _) => Some bin
      | Raise _ => None
      end
  | _ => None
  end.

(** The event stores nothing, or stores a record whose bin is one of
    the 720. *)
Definition legal_event (ev : read_event) : bool :=
  match ev with
  | Received raw =>
      match record_of 8000 raw with
      | Some (b, _) => legal_bin b
      | None => true
      end
  | Failed => true
  end.

(** No two keys of the list are equal floats. *)
Fixpoint distinct (ks : list float) : Prop :=
  match ks with
  | [] => True
  | k :: rest => (forall k', In k' rest -> PyFloat.eqb k k' = false) /\ distinct rest
  end.


(** A three-digit line for the angle [k], distance and confidence 0. *)
Definition sample_line (k : nat) : string :=
  let digit (n : nat) := ascii_of_nat (48 + Nat.modulo n 10) in
  String (digit (Nat.div k 100))
         (String (digit (Nat.div k 10)) (String (digit k) ",0,0")).

(** A mantissa and exponent standing for an integer number of halves,
    in a form that rounding to 53 bits leaves alone. *)
Definition halves (m e : Z) : Prop :=
  -1 <= e \/
  (-1074 <= e /\ Zdigits2 m <= 53 /\ m mod 2 ^ (-1 - e) = 0).

(** An invariant of the object together with a property of everything
    still pending on its port. *)
Definition Safe (Inv : LidarVisualiser -> Prop) (Good : read_event -> Prop)
           (self : LidarVisualiser) : Prop :=
  Inv self /\ forall q, ser self = Some q -> Forall Good q.

(** The bound of the filter is the one [__init__] sets, and every stored
    distance is within it. *)
Definition in_range (self : LidarVisualiser) : Prop :=
  max_distance self = 8000 /\
  Forall (fun v => 0 <= fst v <= 8000) (Dict.values (points self)).


(** The bound of the filter is the one [__init__] sets, every key is one
    of the 720 bins, and no two keys are equal. *)
Definition keys_legal (self : LidarVisualiser) : Prop :=
  max_distance self = 8000 /\
  Forall (fun k => legal_bin k = true) (Dict.keys (points self)) /\
  distinct (Dict.keys (points self)).

(** The map after the assignments [d[bin] = (distance, confidence)] of a
    series of records. *)
Definition store_all (recs : list (float * (Z * Z))) (d : Dict.t) : Dict.t :=
  fold_left (fun d r => Dict.set (fst r) (snd r) d) recs d.

(** Below the filter's bound the scaled limit is no smaller than the
    distance it comes from. *)
Definition scaled_above (m : Z) : bool :=
  PyFloat.leb (PyFloat.of_int m)
              (PyFloat.min (PyFloat.mul (PyFloat.of_int m) float_1_1)
                           (PyFloat.of_int 8000)).

Definition window_safe (w : Window) : Prop :=
  Safe in_range (fun _ => True) (vis w).

(** ** Vocabulary of the read loop and of [main] *)

(** The line makes the loop body raise: it has three fields and the
    exception of their parsing is an [OverflowError]. *)
Definition overflows (raw : string) : bool :=
  let line := PyStr.strip raw in
  if String.eqb line EmptyString || PyStr.startswith "LD06" line then false
  else
    match PyStr.split ","%char line with
    | [p0; p1; p2] =>
        match parse_fields p0 p1 p2 with
        | Raise OverflowError => true
        | _ => false
        end
    | _ => false
    end.

(** The event ends the pass of [read_points] that meets it. *)
Definition stops (ev : read_event) : bool :=
  match ev with
  | Received raw => overflows raw
  | Failed => true
  end.

(** No event of the queue ends a pass. *)
Definition quiet (evs : Serial) : bool := forallb (fun ev => negb (stops ev)) evs.

(** The text is white space only. *)
Fixpoint all_space (t : string) : bool :=
  match t with
  | EmptyString => true
  | String c t' => PyStr.is_space c && all_space t'
  end.

(** [l[i]] on a Python list: a negative index counts from the end,
    [None] stands for [IndexError]. *)
Definition list_index {A : Type} (l : list A) (i : Z) : option A :=
  let n := Z.of_nat (List.length l) in
  if (0 <=? i) && (i <? n) then nth_error l (Z.to_nat i)
  else if (- n <=? i) && (i <? 0) then nth_error l (Z.to_nat (n + i))
  else None.

(** How the start of [main] ends: [sys.exit(code)], an exception nobody
    catches, or the animation running on a window. *)
Inductive startup : Type :=
| Exit (code : Z)
| Uncaught (e : exn)
| Running (w : Window).

(** The port [main] settles on: [ports] is what [list_serial_ports]
    returned, [argv] is [sys.argv], [typed] is what [input] returns if it
    is asked.  [inl] is the port, [inr] how [main] ends instead. *)
Definition select_port (ports argv : list string) (typed : string)
  : string + startup :=
  match ports with
  | [] => inr (Exit 1)
  | _ =>
      match argv with
      | _ :: given :: _ => inl given
      | _ =>
          match ports with
          | [only] => inl only
          | _ =>
              match py_int typed with
              | Ok idx =>
                  match list_index ports idx with
                  | Some p => inl p
                  | None => inr (Exit 1)
                  end
              | Raise ValueError => inr (Exit 1)
              | Raise e => inr (Uncaught e)
              end
          end
      end
  end.

(** [main] up to the start of the animation; [opened] is what
    [serial.Serial(...)] gives for the chosen port, [None] for a
    [SerialException]. *)
Definition main_start (ports argv : list string) (typed : string)
           (opened : option Serial) : startup :=
  match select_port ports argv typed with
  | inr stop => stop
  | inl port =>
      let '(vis, ok) := connect opened (init port 921600) in
      if ok then Running (mkWindow vis (PyFloat.of_int 4000) [] [] None)
      else Exit 1
  end.

(** The object keeps count of at least as many points as its map
    holds. *)
Definition counted (self : LidarVisualiser) : Prop :=
  Dict.len (points self) <= point_count self.

(** No two keys of the point map are equal. *)
Definition keys_distinct (self : LidarVisualiser) : Prop :=
  distinct (Dict.keys (points self)).

(** The radial limit lies between the 4000 of [main] and the 8000 of the
    auto-scale step. *)
Definition limit_bounded (w : Window) : Prop :=
  PyFloat.leb (PyFloat.of_int 4000) (rmax w) = true /\
  PyFloat.leb (rmax w) (PyFloat.of_int 8000) = true.

(** The scaled limit of a distance within the filter's bound does not
    exceed 8000. *)
Definition scaled_below (m : Z) : bool :=
  PyFloat.leb (PyFloat.min (PyFloat.mul (PyFloat.of_int m) float_1_1)
                           (PyFloat.of_int 8000))
              (PyFloat.of_int 8000).

(** Each float of the list is the one before it or a larger one. *)
Fixpoint rises (l : list float) : Prop :=
  match l with
  | a :: (b :: _) as rest => (b = a \/ PyFloat.ltb a b = true) /\ rises rest
  | _ => True
  end.

(** * Facts about floats *)

(** ** Order of floats *)

Lemma compare_sym (x y : float) :
  SFcompare y x = option_map CompOpp (SFcompare x y).
Proof.
  destruct x as [[]|[]| |[] mx ex], y as [[]|[]| |[] my ey]; simpl; try reflexivity.
  - fold (Pos.compare my mx) (Pos.compare mx my).
    rewrite (Z.compare_antisym ey ex), (Pos.compare_antisym my mx).
    destruct (ey ?= ex), (my ?= mx)%positive; reflexivity.
  - fold (Pos.compare my mx) (Pos.compare mx my).
    rewrite (Z.compare_antisym ey ex), (Pos.compare_antisym my mx).
    destruct (ey ?= ex), (my ?= mx)%positive; reflexivity.
Qed.

Lemma eqb_sym (x y : float) : PyFloat.eqb x y = PyFloat.eqb y x.
Proof.
  unfold PyFloat.eqb, SFeqb. rewrite (compare_sym x y).
  destruct (SFcompare x y) as [[]|]; reflexivity.
Qed.

Lemma compare_eq_finite s1 m1 e1 s2 m2 e2 :
  SFcompare (S754_finite s1 m1 e1) (S754_finite s2 m2 e2) = Some Eq ->
  s1 = s2 /\ m1 = m2 /\ e1 = e2.
Proof.
  simpl. fold (Pos.compare m1 m2). destruct s1, s2; try discriminate;
    destruct (Z.compare_spec e1 e2); try discriminate;
    destruct (Pos.compare_spec m1 m2); try discriminate; auto.
Qed.

Lemma eqb_trans (x y z : float) :
  PyFloat.eqb x y = true -> PyFloat.eqb y z = true -> PyFloat.eqb x z = true.
Proof.
  unfold PyFloat.eqb, SFeqb.
  destruct (SFcompare x y) as [[]|] eqn:Hxy; try discriminate.
  destruct (SFcompare y z) as [[]|] eqn:Hyz; try discriminate.
  intros _ _.
  destruct x as [sx|sx| |sx mx ex], y as [sy|sy| |sy my ey];
    try discriminate; try (destruct sx; discriminate);
    try (destruct sy; discriminate).
  - destruct z as [sz|sz| |sz mz ez]; try discriminate;
      try (destruct sz; discriminate); reflexivity.
  - destruct z as [sz|sz| |sz mz ez]; try discriminate;
      try (destruct sy; discriminate).
    destruct sx, sy, sz; try discriminate; reflexivity.
  - apply compare_eq_finite in Hxy. destruct Hxy as (-> & -> & ->).
    rewrite Hyz. reflexivity.
Qed.


Ltac order_cases :=
  repeat match goal with
         | |- context [Z.compare ?a ?b] => destruct (Z.compare_spec a b)
         | |- context [Pos.compare ?a ?b] => destruct (Pos.compare_spec a b)
         end.


(** ** Rounding an integer number of halves *)

Lemma iter_xO_digits (d m : positive) :
  Zpos (digits2_pos (Pos.iter xO m d)) = Zpos (digits2_pos m) + Zpos d.
Proof.
  induction d as [|d IH] using Pos.peano_ind.
  - simpl. lia.
  - rewrite Pos.iter_succ. simpl digits2_pos. lia.
Qed.

Lemma iter_xO_value (d m : positive) :
  Zpos (Pos.iter xO m d) = Zpos m * 2 ^ Zpos d.
Proof.
  induction d as [|d IH] using Pos.peano_ind.
  - simpl. lia.
  - rewrite Pos.iter_succ, Pos2Z.inj_succ, Z.pow_succ_r by lia.
    rewrite Pos2Z.inj_xO, IH. ring.
Qed.

Lemma shr_exponent mrs e n : e <= snd (shr mrs e n).
Proof. destruct n; simpl; lia. Qed.

Lemma shr_fexp_exponent m e l :
  e <= snd (shr_fexp PyFloat.prec PyFloat.emax m e l).
Proof. apply shr_exponent. Qed.

Lemma shr_fexp_exact m e :
  -1074 <= e -> Zdigits2 m <= 53 ->
  shr_fexp PyFloat.prec PyFloat.emax m e loc_Exact
  = (Build_shr_record m false false, e).
Proof.
  intros He Hd. unfold shr_fexp, shr, fexp, emin, PyFloat.prec, PyFloat.emax.
  simpl shr_record_of_loc.
  destruct (Z.max (Zdigits2 m + e - 53) (3 - 1024 - 53) - e) eqn:E;
    try reflexivity; lia.
Qed.

Lemma round_aux_halves sx m e s' m' e' :
  halves m e ->
  binary_round_aux PyFloat.prec PyFloat.emax sx m e loc_Exact
  = S754_finite s' m' e' ->
  half_multiple (S754_finite s' m' e') = true.
Proof.
  intros [He|(He & Hd & Hm)].
  - unfold binary_round_aux.
    pose proof (shr_fexp_exponent m e loc_Exact) as H1.
    destruct (shr_fexp PyFloat.prec PyFloat.emax m e loc_Exact) as [mrs1 e1].
    pose proof (shr_fexp_exponent
                  (round_nearest_even (shr_m mrs1) (loc_of_shr_record mrs1))
                  e1 loc_Exact) as H2.
    destruct (shr_fexp PyFloat.prec PyFloat.emax _ e1 loc_Exact) as [mrs2 e2].
    simpl in H1, H2.
    destruct (shr_m mrs2); try discriminate.
    destruct (e2 <=? PyFloat.emax - PyFloat.prec); try discriminate.
    intros H; injection H as <- <- <-. simpl.
    apply orb_true_iff; left. apply Z.leb_le. lia.
  - unfold binary_round_aux. rewrite (shr_fexp_exact m e He Hd).
    simpl round_nearest_even. rewrite (shr_fexp_exact m e He Hd). simpl shr_m.
    destruct m; try discriminate.
    destruct (e <=? PyFloat.emax - PyFloat.prec); try discriminate.
    intros H; injection H as <- <- <-. simpl.
    apply orb_true_iff; right. apply Z.eqb_eq. exact Hm.
Qed.

Lemma shl_align_halves (mx mz : positive) (ez : Z) :
  shl_align mx (-1) (fexp PyFloat.prec PyFloat.emax (Zpos (digits2_pos mx) + -1))
  = (mz, ez) ->
  halves (Zpos mz) ez.
Proof.
  unfold shl_align.
  set (f := fexp PyFloat.prec PyFloat.emax (Zpos (digits2_pos mx) + -1)).
  assert (Hf : f = Z.max (Zpos (digits2_pos mx) - 54) (-1074))
    by (unfold f, fexp, emin, PyFloat.prec, PyFloat.emax; lia).
  clearbody f.
  destruct (f - -1) as [|d|d] eqn:E; intros H; injection H as <- <-.
  - left; lia.
  - left; lia.
  - right. split; [lia|]. split.
    + unfold Zdigits2. rewrite iter_xO_digits. lia.
    + rewrite iter_xO_value.
      replace (-1 - f) with (Zpos d) by lia.
      apply Z.mod_mul. apply Z.pow_nonzero; lia.
Qed.

Lemma int_truediv2_half_multiple (k : Z) (b : float) :
  PyFloat.int_truediv2 k = Ok b -> half_multiple b = true.
Proof.
  unfold PyFloat.int_truediv2, binary_normalize, binary_round.
  destruct k as [|p|p].
  - intros H; injection H as <-. reflexivity.
  - destruct (shl_align p (-1) _) as [mz ez] eqn:E.
    apply shl_align_halves in E.
    destruct (binary_round_aux _ _ false (Zpos mz) ez loc_Exact) eqn:R;
      try discriminate; intros H; injection H as <-.
    + reflexivity.
    + eapply round_aux_halves; eassumption.
  - destruct (shl_align p (-1) _) as [mz ez] eqn:E.
    apply shl_align_halves in E.
    destruct (binary_round_aux _ _ true (Zpos mz) ez loc_Exact) eqn:R;
      try discriminate; intros H; injection H as <-.
    + reflexivity.
    + eapply round_aux_halves; eassumption.
Qed.

Lemma int_truediv2_eqb_refl (k : Z) (b : float) :
  PyFloat.int_truediv2 k = Ok b -> PyFloat.eqb b b = true.
Proof.
  unfold PyFloat.int_truediv2.
  destruct (binary_normalize _ _ k (-1) false) as [s|s| |s m e];
    try discriminate; intros H; injection H as <-.
  - reflexivity.
  - unfold PyFloat.eqb, SFeqb. simpl. fold (Pos.compare m m).
    rewrite Z.compare_refl, Pos.compare_refl. destruct s; reflexivity.
Qed.

Lemma angle_bin_half_multiple (a b : float) :
  angle_bin a = Ok b -> half_multiple b = true.
Proof.
  unfold angle_bin, bind.
  destruct (PyFloat.round _); try discriminate.
  apply int_truediv2_half_multiple.
Qed.

Lemma angle_bin_eqb_refl (a b : float) :
  angle_bin a = Ok b -> PyFloat.eqb b b = true.
Proof.
  unfold angle_bin, bind.
  destruct (PyFloat.round _); try discriminate.
  apply int_truediv2_eqb_refl.
Qed.

(** * The read loop *)

(** ** The dictionary *)

Lemma set_keys k v d :
  Dict.keys (Dict.set k v d) = Dict.keys d \/
  (Dict.keys (Dict.set k v d) = Dict.keys d ++ [k] /\
   forall k', In k' (Dict.keys d) -> PyFloat.eqb k' k = false).
Proof.
  unfold Dict.keys. induction d as [|[k0 v0] d IH]; cbn [Dict.set map fst app].
  - right. split; [reflexivity | intros k' []].
  - destruct (PyFloat.eqb k0 k) eqn:E; cbn [map fst].
    + left; reflexivity.
    + destruct IH as [IH|[IH Hn]]; rewrite IH.
      * left. reflexivity.
      * right. split; [reflexivity|].
        intros k' [<-|Hin]; auto.
Qed.

Lemma set_length k v d :
  (List.length d <= List.length (Dict.set k v d))%nat.
Proof.
  induction d as [|[k0 v0] d IH]; simpl; [lia|].
  destruct (PyFloat.eqb k0 k); simpl; lia.
Qed.

Lemma set_keys_Forall (P : float -> Prop) k v d :
  P k -> Forall P (Dict.keys d) -> Forall P (Dict.keys (Dict.set k v d)).
Proof.
  intros Hk Hd. destruct (set_keys k v d) as [->|[-> _]]; auto.
  apply Forall_app; auto.
Qed.

Lemma set_values_Forall (R : Z * Z -> Prop) k v d :
  R v -> Forall R (Dict.values d) -> Forall R (Dict.values (Dict.set k v d)).
Proof.
  intros Hv. induction d as [|[k0 v0] d IH]; simpl; intros Hd.
  - constructor; auto.
  - inversion Hd; subst. destruct (PyFloat.eqb k0 k); simpl; constructor; auto.
Qed.

Lemma distinct_app ks k :
  distinct ks -> (forall k', In k' ks -> PyFloat.eqb k' k = false) ->
  distinct (ks ++ [k]).
Proof.
  induction ks as [|k0 ks IH]; simpl; intros Hd Hn.
  - split; [intros k' []|exact I].
  - destruct Hd as [H0 Hd]. split.
    + intros k' Hin. apply in_app_or in Hin. destruct Hin as [Hin|[<-|[]]]; auto.
    + apply IH; auto.
Qed.

Lemma set_distinct k v d :
  distinct (Dict.keys d) -> distinct (Dict.keys (Dict.set k v d)).
Proof.
  intros Hd. destruct (set_keys k v d) as [->|[-> Hn]]; auto.
  apply distinct_app; auto.
Qed.

(** The entries for bin [b] after [d[k] = v]: the assignment touches the
    first of them when [k] equals [b], and none otherwise. *)
Lemma entries_set b k v d :
  entries b (Dict.set k v d)
  = if PyFloat.eqb k b then v :: tl (entries b d) else entries b d.
Proof.
  unfold entries. induction d as [|[k0 v0] d IH]; simpl.
  - destruct (PyFloat.eqb k b); reflexivity.
  - destruct (PyFloat.eqb k0 k) eqn:E0; simpl.
    + destruct (PyFloat.eqb k0 b) eqn:E1, (PyFloat.eqb k b) eqn:E2;
        simpl; try reflexivity.
      * rewrite (eqb_trans k k0 b) in E2; [discriminate| |assumption].
        rewrite eqb_sym; assumption.
      * rewrite (eqb_trans k0 k b) in E1; [discriminate|assumption|assumption].
    + destruct (PyFloat.eqb k0 b) eqn:E1; simpl; rewrite IH.
      * destruct (PyFloat.eqb k b) eqn:E2; [|reflexivity].
        rewrite (eqb_trans k0 b k) in E0; [discriminate|assumption|].
        rewrite eqb_sym; assumption.
      * reflexivity.
Qed.

Lemma latest_app b recs k v :
  latest b (recs ++ [(k, v)])
  = if PyFloat.eqb k b then Some v else latest b recs.
Proof.
  unfold latest. rewrite rev_app_distr. simpl.
  destruct (PyFloat.eqb k b); reflexivity.
Qed.

(** ** One line *)

Lemma process_line_record (self : LidarVisualiser) (raw : string) :
  match record_of (max_distance self) raw with
  | Some (b, v) =>
      process_line self (PyStr.strip raw) = (with_point b v self, Ok tt)
  | None => fst (process_line self (PyStr.strip raw)) = self
  end.
Proof.
  unfold record_of, process_line, store_fields.
  destruct (_ || _); [reflexivity|].
  destruct (PyStr.split _ _) as [|p0 [|p1 [|p2 [|? ?]]]]; try reflexivity.
  destruct (parse_fields p0 p1 p2) as [[[b d] c]|[]]; try reflexivity.
  destruct (_ && _); reflexivity.
Qed.

Lemma process_line_cases (self : LidarVisualiser) (raw : string) :
  fst (process_line self (PyStr.strip raw)) = self \/
  exists b d c,
    line_bin raw = Some b /\ 0 <= d <= max_distance self /\
    process_line self (PyStr.strip raw) = (with_point b (d, c) self, Ok tt).
Proof.
  unfold line_bin, process_line, store_fields.
  destruct (_ || _); [left; reflexivity|].
  destruct (PyStr.split _ _) as [|p0 [|p1 [|p2 [|? ?]]]]; try (left; reflexivity).
  destruct (parse_fields p0 p1 p2) as [[[b d] c]|[]]; try (left; reflexivity).
  destruct (_ && _) eqn:E; [|left; reflexivity].
  right. exists b, d, c. apply andb_true_iff in E. destruct E as [E1 E2].
  apply Z.leb_le in E1, E2. auto.
Qed.

Lemma line_bin_sound (raw : string) (b : float) :
  line_bin raw = Some b ->
  half_multiple b = true /\ PyFloat.eqb b b = true.
Proof.
  unfold line_bin, parse_fields, bind.
  destruct (PyStr.split _ _) as [|p0 [|p1 [|p2 [|? ?]]]]; try discriminate.
  destruct (py_float p0) as [a|]; try discriminate.
  destruct (py_int p1); try discriminate.
  destruct (py_int p2); try discriminate.
  destruct (angle_bin a) as [b'|] eqn:E; try discriminate.
  intros H; injection H as <-.
  split; [eapply angle_bin_half_multiple|eapply angle_bin_eqb_refl]; eassumption.
Qed.

(** ** Invariants of the read loop *)

Section Preservation.

Variable Inv : LidarVisualiser -> Prop.
Variable Good : read_event -> Prop.

Hypothesis Inv_ser : forall s self, Inv self -> Inv (with_ser s self).
Hypothesis Inv_line :
  forall self raw, Good (Received raw) -> Inv self ->
                   Inv (fst (process_line self (PyStr.strip raw))).

Lemma drain_preserves pending self :
  Forall Good pending -> Inv self ->
  let '(rest, self', _) := drain pending self in
  Forall Good rest /\ Inv self'.
Proof.
  revert self. induction pending as [|[raw|] pending IH]; simpl; intros self Hg Hi.
  - auto.
  - inversion Hg; subst.
    pose proof (Inv_line self raw H1 Hi) as Hl.
    destruct (process_line self (PyStr.strip raw)) as [self' [u|e]]; simpl in Hl.
    + apply IH; auto.
    + auto.
  - inversion Hg; subst. auto.
Qed.

Lemma read_points_preserves self :
  Safe Inv Good self -> Safe Inv Good (fst (read_points self)).
Proof.
  intros [Hi Hq]. unfold read_points.
  destruct (ser self) as [pending|] eqn:E.
  - pose proof (drain_preserves pending self (Hq _ eq_refl) Hi) as H.
    destruct (drain pending self) as [[rest self'] stop].
    destruct H as [Hr Hi'].
    assert (Safe Inv Good (with_ser (Some rest) self')) as HS.
    { split; [apply Inv_ser; assumption|].
      simpl. intros q Hq'. injection Hq' as <-. assumption. }
    destruct stop as [[]|]; exact HS.
  - split; [assumption|]. simpl. rewrite E. discriminate.
Qed.

Lemma feed_preserves evs self :
  Forall Good evs -> Safe Inv Good self -> Safe Inv Good (feed evs self).
Proof.
  intros Hg [Hi Hq]. unfold feed.
  destruct (ser self) as [pending|] eqn:E.
  - split; [apply Inv_ser; assumption|].
    simpl. intros q Hq'. injection Hq' as <-.
    apply Forall_app. split; auto.
  - split; [assumption|]. rewrite E. discriminate.
Qed.

Lemma polls_preserves arrivals self :
  Forall (Forall Good) arrivals -> Safe Inv Good self -> Safe Inv Good (polls arrivals self).
Proof.
  revert self. induction arrivals as [|evs arrivals IH]; simpl; intros self Ha Hs.
  - assumption.
  - inversion Ha; subst. apply IH; auto.
    apply read_points_preserves, feed_preserves; assumption.
Qed.

Lemma connected_safe port baud opened :
  Inv (init port baud) -> Forall Good opened ->
  Safe Inv Good (connected port baud opened).
Proof.
  intros Hi Hg. split.
  - apply (Inv_ser (Some opened)) in Hi. exact Hi.
  - simpl. intros q Hq. injection Hq as <-. assumption.
Qed.

End Preservation.

(** * Properties *)

(** ** Snapshots *)

Lemma fold_polar (items : Dict.t) (angles : list float) (distances confidences : list Z) :
  fold_left
    (fun '(angles, distances, confidences) '(angle, (dist, conf)) =>
       (angles ++ [PyFloat.radians angle], distances ++ [dist],
        confidences ++ [conf]))
    items (angles, distances, confidences)
  = (angles ++ map PyFloat.radians (Dict.keys items),
     distances ++ map fst (Dict.values items),
     confidences ++ map snd (Dict.values items)).
Proof.
  revert angles distances confidences.
  induction items as [|[k [d c]] items IH]; intros; simpl.
  - rewrite !app_nil_r. reflexivity.
  - rewrite IH, <- !app_assoc. reflexivity.
Qed.

Lemma get_polar_data_arrays (self : LidarVisualiser) :
  get_polar_data self
  = (self, (map PyFloat.radians (Dict.keys (points self)),
            map fst (Dict.values (points self)),
            map snd (Dict.values (points self)))).
Proof.
  unfold get_polar_data. destruct (points self) as [|kv items] eqn:E.
  - reflexivity.
  - rewrite fold_polar. reflexivity.
Qed.

(** C10: without a serial connection [read_points] returns at once: no
    exception, the object (point map and point counter included) as it
    was. *)
Theorem read_points_not_connected (self : LidarVisualiser) :
  ser self = None -> read_points self = (self, Ok tt).
Proof. intros H. unfold read_points. rewrite H. reflexivity. Qed.

Lemma read_points_not_connected_witness :
  ser (init "/dev/ttyUSB0" 921600) = None /\
  read_points (init "/dev/ttyUSB0" 921600) = (init "/dev/ttyUSB0" 921600, Ok tt).
Proof.
  split; [reflexivity|].
  apply (read_points_not_connected (init "/dev/ttyUSB0" 921600)). reflexivity.
Defined.

(** C8: on an empty point map the snapshot is three empty arrays, and
    the call returns. *)
Theorem snapshot_of_empty_map (self : LidarVisualiser) :
  points self = [] -> get_polar_data self = (self, ([], [], [])).
Proof. intros H. unfold get_polar_data. rewrite H. reflexivity. Qed.

Lemma snapshot_of_empty_map_witness :
  points (init "/dev/ttyUSB0" 921600) = [] /\
  get_polar_data (init "/dev/ttyUSB0" 921600)
  = (init "/dev/ttyUSB0" 921600, ([], [], [])).
Proof.
  split; [reflexivity|].
  apply (snapshot_of_empty_map (init "/dev/ttyUSB0" 921600)). reflexivity.
Defined.

(** C6: a snapshot leaves the object as it was, and a second snapshot
    taken right after the first gives the same three arrays. *)
Theorem snapshot_pure_and_repeatable (self : LidarVisualiser) :
  fst (get_polar_data self) = self /\
  snd (get_polar_data (fst (get_polar_data self))) = snd (get_polar_data self).
Proof.
  rewrite get_polar_data_arrays. simpl. rewrite get_polar_data_arrays. auto.
Qed.


(** ** The distance filter *)

Lemma in_range_ser s self : in_range self -> in_range (with_ser s self).
Proof. intros H; exact H. Qed.

Lemma in_range_line self raw :
  in_range self -> in_range (fst (process_line self (PyStr.strip raw))).
Proof.
  intros [Hm Hv].
  destruct (process_line_cases self raw) as [->|(b & d & c & _ & Hd & ->)].
  - split; assumption.
  - split; [exact Hm|]. simpl. apply set_values_Forall; [simpl; lia|assumption].
Qed.

Lemma in_range_polls port baud opened arrivals :
  in_range (polls arrivals (connected port baud opened)).
Proof.
  apply (polls_preserves in_range (fun _ => True)).
  - exact in_range_ser.
  - intros self raw _. apply in_range_line.
  - apply Forall_forall. intros evs _. apply Forall_forall. auto.
  - apply connected_safe.
    + exact in_range_ser.
    + split; [reflexivity|constructor].
    + apply Forall_forall. auto.
Qed.

Lemma py_int_raises (s : string) (e : exn) :
  py_int s = Raise e -> e = ValueError.
Proof.
  unfold py_int.
  destruct (PyStr.drop_underscores _ _ _) as [t|]; [|congruence].
  destruct (PyStr.sign t) as [neg body].
  destruct (PyStr.digits 0 0 body) as [[v n] [|? ?]]; [|congruence].
  destruct (_ || _); congruence.
Qed.

Lemma py_float_raises (s : string) (e : exn) :
  py_float s = Raise e -> e = ValueError.
Proof.
  unfold py_float.
  destruct (PyStr.drop_underscores _ _ _) as [t|]; [|congruence].
  destruct (PyStr.sign t) as [neg body].
  destruct (_ || _); [congruence|].
  destruct (String.eqb _ _); [congruence|].
  destruct (PyStr.digits 0 0 body) as [[i ni] rest].
  destruct (match rest with
            | String "."%char r =>
                let '(m, n, r') := PyStr.digits i 0 r in (m, n, r')
            | _ => (i, 0, rest)
            end) as [[m nf] rest'].
  destruct (_ =? _); [congruence|].
  destruct (py_exponent rest'); congruence.
Qed.

Lemma angle_bin_raises (a : float) (e : exn) :
  angle_bin a = Raise e -> e = ValueError \/ e = OverflowError.
Proof.
  unfold angle_bin, bind, PyFloat.round, PyFloat.int_truediv2.
  destruct (PyFloat.mul a _); try (intros H; injection H as <-; auto).
  - destruct (binary_normalize _ _ _ _ _); try discriminate;
      intros H; injection H as <-; auto.
  - destruct (binary_normalize _ _ _ _ _); try discriminate;
      intros H; injection H as <-; auto.
Qed.

(** C5: a line whose distance field reads as an integer outside
    [0, max_distance] leaves the object as it was, silently so whenever
    the bin of its angle can be computed; and at every moment of every
    run each stored distance lies within [0, 8000], the value
    [max_distance] keeps. *)
Theorem distance_out_of_range_rejected :
  (forall (self : LidarVisualiser) (line p0 p1 p2 : string) (d : Z),
      PyStr.split ","%char line = [p0; p1; p2] ->
      py_int p1 = Ok d ->
      d < 0 \/ max_distance self < d ->
      fst (process_line self line) = self /\
      ((forall a, py_float p0 = Ok a -> angle_bin a <> Raise OverflowError) ->
       process_line self line = (self, Ok tt))) /\
  (forall (port : string) (baud : Z) (opened : Serial) (arrivals : list Serial),
      let self := polls arrivals (connected port baud opened) in
      max_distance self = 8000 /\
      Forall (fun v => 0 <= fst v <= max_distance self) (Dict.values (points self))).
Proof.
  split.
  - intros self line p0 p1 p2 d Hs Hp Hd.
    unfold process_line, store_fields, parse_fields, bind.
    destruct (_ || _); [auto|]. rewrite Hs, Hp.
    destruct (py_float p0) as [a|e] eqn:Ea.
    + destruct (py_int p2) as [c|e] eqn:Ec.
      * destruct (angle_bin a) as [b|e] eqn:Eb.
        -- assert ((0 <=? d) && (d <=? max_distance self) = false) as ->; auto.
           apply andb_false_iff. rewrite !Z.leb_gt. lia.
        -- destruct (angle_bin_raises a e Eb) as [->| ->]; auto.
           split; [reflexivity|]. intros H. destruct (H a eq_refl Eb).
      * rewrite (py_int_raises p2 e Ec). auto.
    + rewrite (py_float_raises p0 e Ea). auto.
  - intros port baud opened arrivals self.
    destruct (in_range_polls port baud opened arrivals) as [Hm Hv].
    fold self in Hm, Hv. rewrite Hm. auto.
Qed.

Lemma distance_out_of_range_rejected_witness :
  fst (process_line (init "/dev/ttyUSB0" 921600) "45.0,9000,180")
  = init "/dev/ttyUSB0" 921600.
Proof.
  apply (proj1 distance_out_of_range_rejected
               (init "/dev/ttyUSB0" 921600)
               "45.0,9000,180"%string "45.0"%string "9000"%string "180"%string
               9000).
  - reflexivity.
  - vm_compute. reflexivity.
  - right. simpl. lia.
Defined.

(** ** Exceptions leaving the read loop *)

(** A line is skipped without a trace when it is empty, starts with the
    banner, has not exactly three fields, or has a field that does not
    read as a number. *)
Lemma malformed_line_skipped (self : LidarVisualiser) (line : string) :
  line = EmptyString \/
  PyStr.startswith "LD06" line = true \/
  List.length (PyStr.split ","%char line) <> 3%nat \/
  (exists p0 p1 p2,
      PyStr.split ","%char line = [p0; p1; p2] /\
      (py_float p0 = Raise ValueError \/ py_int p1 = Raise ValueError \/
       py_int p2 = Raise ValueError)) ->
  process_line self line = (self, Ok tt).
Proof.
  unfold process_line. intros [->|[H|[H|(p0 & p1 & p2 & Hs & H)]]].
  - reflexivity.
  - rewrite H, orb_true_r. reflexivity.
  - destruct (_ || _); [reflexivity|].
    destruct (PyStr.split _ _) as [|q0 [|q1 [|q2 [|? ?]]]]; try reflexivity.
    destruct H. reflexivity.
  - destruct (_ || _); [reflexivity|]. rewrite Hs.
    unfold store_fields, parse_fields, bind.
    destruct H as [-> | [H|H]]; [reflexivity| |].
    + destruct (py_float p0) as [a|e] eqn:Ea.
      * rewrite H. reflexivity.
      * rewrite (py_float_raises p0 e Ea). reflexivity.
    + destruct (py_float p0) as [a|e] eqn:Ea.
      * destruct (py_int p1) as [d|e] eqn:Ed.
        -- rewrite H. reflexivity.
        -- rewrite (py_int_raises p1 e Ed). reflexivity.
      * rewrite (py_float_raises p0 e Ea). reflexivity.
Qed.

(** A line either ends its turn of the loop quietly or raises an
    [OverflowError]; no other exception leaves the loop body. *)
Lemma process_line_outcome (self : LidarVisualiser) (line : string) :
  snd (process_line self line) = Ok tt \/
  snd (process_line self line) = Raise OverflowError.
Proof.
  unfold process_line, store_fields, parse_fields, bind.
  destruct (_ || _); [auto|].
  destruct (PyStr.split _ _) as [|p0 [|p1 [|p2 [|? ?]]]]; auto.
  destruct (py_float p0) as [a|e] eqn:Ea;
    [|rewrite (py_float_raises p0 e Ea); auto].
  destruct (py_int p1) as [d|e] eqn:Ed;
    [|rewrite (py_int_raises p1 e Ed); auto].
  destruct (py_int p2) as [c|e] eqn:Ec;
    [|rewrite (py_int_raises p2 e Ec); auto].
  destruct (angle_bin a) as [b|e] eqn:Eb.
  - destruct (_ && _); auto.
  - destruct (angle_bin_raises a e Eb) as [-> | ->]; auto.
Qed.

(** The scenarios of the specification. *)
Example banner_line_skipped (self : LidarVisualiser) :
  process_line self "LD06 booting" = (self, Ok tt).
Proof. reflexivity. Qed.

Example unreadable_distance_skipped (self : LidarVisualiser) :
  process_line self "45.0,abc,180" = (self, Ok tt).
Proof.
  apply malformed_line_skipped. right; right; right.
  exists "45.0"%string, "abc"%string, "180"%string.
  split; [reflexivity|]. right; left. vm_compute. reflexivity.
Qed.

Example neighbouring_angles_two_bins :
  points (polls [[Received "0.2,1500,200"; Received "0.3,1600,210"]]
                (connected "/dev/ttyUSB0" 921600 []))
  = [(S754_zero false, (1500, 200));
     (S754_finite false 4503599627370496 (-53), (1600, 210))].
Proof. vm_compute. reflexivity. Qed.

(** C2: the line "inf,100,200" has three fields that all parse, yet its
    processing ends in an [OverflowError] that no handler of
    [read_points] catches: the exception leaves the call. *)
Theorem infinite_angle_raises :
  (forall self : LidarVisualiser,
      process_line self "inf,100,200" = (self, Raise OverflowError)) /\
  snd (read_points (connected "/dev/ttyUSB0" 921600 [Received "inf,100,200"]))
  = Raise OverflowError.
Proof.
  split.
  - intros self. unfold process_line, store_fields.
    replace (parse_fields "inf"%string "100"%string "200"%string) with (@Raise (float * Z * Z) OverflowError)
      by (vm_compute; reflexivity).
    reflexivity.
  - vm_compute. reflexivity.
Qed.

(** ** Keys of the point map *)


Lemma keys_legal_polls port baud opened arrivals :
  Forall (fun ev => legal_event ev = true) opened ->
  Forall (Forall (fun ev => legal_event ev = true)) arrivals ->
  keys_legal (polls arrivals (connected port baud opened)).
Proof.
  intros Ho Ha.
  apply (polls_preserves keys_legal (fun ev => legal_event ev = true)).
  - intros s self H; exact H.
  - intros self raw Hg (Hm & Hl & Hd).
    pose proof (process_line_record self raw) as Hp.
    rewrite Hm in Hp. simpl in Hg.
    destruct (record_of 8000 raw) as [[b v]|].
    + rewrite Hp. split; [exact Hm|]. split.
      * apply set_keys_Forall; assumption.
      * apply set_distinct; assumption.
    + rewrite Hp. repeat split; assumption.
  - exact Ha.
  - apply connected_safe.
    + intros s self H; exact H.
    + split; [reflexivity|]. split; [constructor|exact I].
    + exact Ho.
Qed.






(** ** The size of the point map *)

Lemma filter_split (p : float -> bool) (ks : list float) :
  List.length ks
  = (List.length (filter p ks) + List.length (filter (fun k => negb (p k)) ks))%nat.
Proof.
  induction ks as [|k ks IH]; simpl; [reflexivity|].
  destruct (p k); simpl; lia.
Qed.

Lemma distinct_filter (p : float -> bool) (ks : list float) :
  distinct ks -> distinct (filter p ks).
Proof.
  induction ks as [|k ks IH]; simpl; [auto|]. intros [Hk Hd].
  destruct (p k); simpl; auto. split; auto.
  intros k' Hin. apply filter_In in Hin. apply Hk, Hin.
Qed.

Lemma distinct_one_per_bin (l : float) (ks : list float) :
  distinct ks ->
  (List.length (filter (fun k => PyFloat.eqb k l) ks) <= 1)%nat.
Proof.
  induction ks as [|k ks IH]; simpl; [lia|]. intros [Hk Hd].
  destruct (PyFloat.eqb k l) eqn:E; [|auto].
  assert (filter (fun k => PyFloat.eqb k l) ks = []) as ->; [|simpl; lia].
  clear IH Hd. induction ks as [|k' ks IH]; simpl; [reflexivity|].
  destruct (PyFloat.eqb k' l) eqn:E'.
  - pose proof (Hk k' (or_introl eq_refl)) as Hc.
    rewrite (eqb_trans k l k') in Hc;
      [discriminate|assumption|rewrite eqb_sym; assumption].
  - apply IH. intros k'' Hin. apply Hk. right; assumption.
Qed.

Lemma distinct_bounded (bins ks : list float) :
  distinct ks ->
  (forall k, In k ks -> existsb (PyFloat.eqb k) bins = true) ->
  (List.length ks <= List.length bins)%nat.
Proof.
  revert ks. induction bins as [|l bins IH]; intros ks Hd Hin.
  - destruct ks as [|k ks]; [simpl; lia|].
    specialize (Hin k (or_introl eq_refl)). discriminate.
  - rewrite (filter_split (fun k => PyFloat.eqb k l) ks).
    pose proof (distinct_one_per_bin l ks Hd) as H1.
    assert (List.length (filter (fun k => negb (PyFloat.eqb k l)) ks)
            <= List.length bins)%nat as H2.
    { apply IH; [apply distinct_filter; assumption|].
      intros k Hk. apply filter_In in Hk. destruct Hk as [Hk Hn].
      specialize (Hin k Hk). simpl in Hin.
      apply negb_true_iff in Hn. rewrite Hn in Hin. exact Hin. }
    change (List.length (l :: bins)) with (S (List.length bins)). lia.
Qed.

(** C4, as the code has it: when the bin of each record the lines
    store is one of the 720 bins of a rotation, the point map never holds
    more than 720 entries, however many lines are received. *)
Theorem size_bounded_on_legal_bins
        (port : string) (baud : Z) (opened : Serial) (arrivals : list Serial) :
  Forall (fun ev => legal_event ev = true) opened ->
  Forall (Forall (fun ev => legal_event ev = true)) arrivals ->
  Dict.len (points (polls arrivals (connected port baud opened))) <= 720.
Proof.
  intros Ho Ha.
  destruct (keys_legal_polls port baud opened arrivals Ho Ha) as (_ & Hl & Hd).
  pose proof (distinct_bounded legal_bins _ Hd) as H.
  unfold Dict.len. unfold Dict.keys in H. rewrite length_map in H.
  unfold legal_bins in H at 2. rewrite length_map, length_seq in H.
  assert (List.length (points (polls arrivals (connected port baud opened)))
          <= 720)%nat; [|lia].
  apply H. intros k Hk. rewrite Forall_forall in Hl. apply Hl, Hk.
Qed.

Lemma size_bounded_on_legal_bins_witness :
  Dict.len (points (polls [[Received "359.7,1600,210"; Received "0.3,1700,220"]]
                          (connected "/dev/ttyUSB0" 921600
                                     [Received "0.2,1500,200"]))) <= 720.
Proof.
  apply (size_bounded_on_legal_bins "/dev/ttyUSB0" 921600
           [Received "0.2,1500,200"]
           [[Received "359.7,1600,210"; Received "0.3,1700,220"]]).
  - constructor; [vm_compute; reflexivity|constructor].
  - constructor; [|constructor].
    constructor; [vm_compute; reflexivity|].
    constructor; [vm_compute; reflexivity|constructor].
Defined.

(** C4 as stated fails: the 721 lines for the angles 0, 1, ..., 720
    leave 721 entries in the point map. *)
Lemma size_bound_counterexample :
  ~ Dict.len (points (fst (read_points
       (connected "/dev/ttyUSB0" 921600
                  (map (fun k => Received (sample_line k)) (seq 0 721))))))
    <= 720.
Proof.
  assert (Dict.len (points (fst (read_points
            (connected "/dev/ttyUSB0" 921600
                       (map (fun k => Received (sample_line k)) (seq 0 721))))))
          = 721) as E by (vm_compute; reflexivity).
  rewrite E. lia.
Qed.

(** ** Latest record wins *)

Lemma entries_store_all (b : float) (recs : list (float * (Z * Z))) (d : Dict.t) :
  (List.length (entries b d) <= 1)%nat ->
  entries b (store_all recs d)
  = match latest b recs with
    | Some v => [v]
    | None => entries b d
    end.
Proof.
  intros Hd. unfold store_all.
  induction recs as [|[k v] recs IH] using rev_ind.
  - reflexivity.
  - rewrite fold_left_app. simpl. rewrite entries_set, latest_app, IH.
    destruct (PyFloat.eqb k b); [|reflexivity].
    destruct (latest b recs); [reflexivity|].
    destruct (entries b d) as [|v0 [|v1 vs]]; simpl in *; try reflexivity; lia.
Qed.

Lemma records_of_app max l1 l2 :
  records_of max (l1 ++ l2) = records_of max l1 ++ records_of max l2.
Proof.
  induction l1 as [|raw l1 IH]; simpl; [reflexivity|].
  destruct (record_of max raw); rewrite IH; reflexivity.
Qed.

Lemma drain_valid (lines : list string) (self : LidarVisualiser) :
  Forall (fun raw => record_of (max_distance self) raw <> None) lines ->
  exists self',
    drain (map Received lines) self = ([], self', None) /\
    points self' = store_all (records_of (max_distance self) lines) (points self) /\
    max_distance self' = max_distance self /\ ser self' = ser self.
Proof.
  revert self. induction lines as [|raw lines IH]; intros self Hv.
  - exists self. auto.
  - inversion Hv as [|? ? Hr Hv']; subst. simpl.
    pose proof (process_line_record self raw) as Hp.
    destruct (record_of (max_distance self) raw) as [[b v]|]; [|congruence].
    rewrite Hp.
    destruct (IH (with_point b v self) Hv') as (self' & Hd & Hpts & Hm & Hs).
    exists self'. auto.
Qed.

Lemma polls_valid (batches : list (list string)) (self : LidarVisualiser) :
  ser self = Some [] ->
  Forall (Forall (fun raw => record_of (max_distance self) raw <> None)) batches ->
  points (polls (map (map Received) batches) self)
  = store_all (records_of (max_distance self) (List.concat batches)) (points self).
Proof.
  revert self. induction batches as [|lines batches IH]; intros self Hs Hv.
  - reflexivity.
  - inversion Hv as [|? ? Hl Hv']; subst. simpl.
    unfold feed, read_points. rewrite Hs. simpl.
    destruct (drain_valid lines (with_ser (Some (map Received lines)) self) Hl)
      as (self' & Hd & Hpts & Hm & Hs').
    rewrite Hd. simpl.
    rewrite IH.
    + simpl. rewrite Hm, Hpts. simpl.
      rewrite records_of_app. unfold store_all. rewrite fold_left_app. reflexivity.
    + reflexivity.
    + simpl. rewrite Hm. exact Hv'.
Qed.

Lemma record_of_bin max raw b v :
  record_of max raw = Some (b, v) -> line_bin raw = Some b.
Proof.
  unfold record_of, line_bin. destruct (_ || _); [discriminate|].
  destruct (PyStr.split _ _) as [|p0 [|p1 [|p2 [|? ?]]]]; try discriminate.
  destruct (parse_fields p0 p1 p2) as [[[b' d] c]|]; try discriminate.
  destruct (_ && _); try discriminate. intros H; injection H as <- _. reflexivity.
Qed.

Lemma records_of_bin max raws r :
  In r (records_of max raws) -> PyFloat.eqb (fst r) (fst r) = true.
Proof.
  induction raws as [|raw raws IH]; simpl; [intros []|].
  destruct (record_of max raw) as [[b v]|] eqn:E; [|exact IH].
  intros [<-|Hin]; [|exact (IH Hin)].
  apply record_of_bin in E. apply (line_bin_sound raw b E).
Qed.

(** C1: when every received line parses and has its distance in range,
    the point map holds, for each bin, exactly one entry if some record
    has that bin and none otherwise, and the entry is the distance and
    confidence of the most recent record for the bin. *)
Theorem latest_record_wins
        (port : string) (baud : Z) (batches : list (list string)) :
  Forall (Forall (fun raw => record_of 8000 raw <> None)) batches ->
  let self := polls (map (map Received) batches) (connected port baud []) in
  let recs := records_of 8000 (List.concat batches) in
  List.length recs = List.length (List.concat batches) /\
  (forall r, In r recs -> exists v, entries (fst r) (points self) = [v]) /\
  (forall b, entries b (points self)
             = match latest b recs with
               | Some v => [v]
               | None => []
               end).
Proof.
  intros Hv self recs.
  assert (forall b, entries b (points self)
                    = match latest b recs with Some v => [v] | None => [] end) as H.
  { intros b. unfold self. rewrite polls_valid; [|reflexivity|exact Hv].
    simpl. apply (entries_store_all b _ []). simpl. lia. }
  split; [|split].
  - unfold recs. clear H self recs.
    assert (Forall (fun raw => record_of 8000 raw <> None) (List.concat batches)) as Hc.
    { induction Hv; simpl; [constructor|]. apply Forall_app; auto. }
    induction Hc as [|raw raws Hr Hc IH]; simpl; [reflexivity|].
    destruct (record_of 8000 raw); [simpl; lia|congruence].
  - intros r Hin. rewrite H. unfold latest.
    destruct (find _ (rev recs)) eqn:E; simpl; [eauto|].
    pose proof (find_none _ _ E r) as Hn. simpl in Hn.
    rewrite (records_of_bin 8000 _ r Hin) in Hn.
    rewrite <- in_rev in Hn. specialize (Hn Hin). discriminate.
  - exact H.
Qed.

Lemma latest_record_wins_witness :
  entries (S754_zero false)
          (points (polls [[Received "0.2,1500,200"]; [Received "0.1,1600,210"]]
                         (connected "/dev/ttyUSB0" 921600 [])))
  = [(1600, 210)].
Proof.
  assert (Forall (Forall (fun raw => record_of 8000 raw <> None))
                 [["0.2,1500,200"%string]; ["0.1,1600,210"%string]]) as Hv.
  { constructor; [|constructor; [|constructor]].
    - constructor; [vm_compute; discriminate|constructor].
    - constructor; [vm_compute; discriminate|constructor]. }
  pose proof (proj2 (proj2 (latest_record_wins "/dev/ttyUSB0" 921600
                [["0.2,1500,200"%string]; ["0.1,1600,210"%string]] Hv))
                (S754_zero false)) as H.
  etransitivity; [exact H|].
  vm_compute. reflexivity.
Defined.

(** ** Auto-scaling *)

Lemma np_max_bounds (a : list Z) (lo hi : Z) :
  lo <= 0 <= hi -> Forall (fun d => lo <= d <= hi) a -> lo <= np_max a <= hi.
Proof.
  intros H0 Ha. destruct a as [|x a]; simpl; [lia|].
  inversion Ha as [|? ? Hx Ha']; subst. clear Ha.
  revert x Hx. induction Ha' as [|y a Hy Ha' IH]; simpl; intros x Hx; [lia|].
  apply IH. lia.
Qed.

Lemma scaled_above_all (m : Z) : 0 <= m <= 8000 -> scaled_above m = true.
Proof.
  intros Hm.
  assert (forallb scaled_above (map Z.of_nat (seq 0 (Z.to_nat 8001))) = true) as H
      by (vm_compute; reflexivity).
  rewrite forallb_forall in H. apply H.
  apply in_map_iff. exists (Z.to_nat m). split; [lia|].
  apply in_seq. lia.
Qed.


Lemma update_vis (w : Window) : vis (fst (update w)) = fst (read_points (vis w)).
Proof.
  unfold update. destruct (read_points (vis w)) as [v [u|e]]; [|reflexivity].
  rewrite get_polar_data_arrays. simpl.
  destruct (0 <? _); reflexivity.
Qed.

Lemma update_rmax (w : Window) :
  rmax (fst (update w)) = rmax w \/
  rmax (fst (update w))
  = auto_scale (map fst (Dict.values (points (fst (read_points (vis w))))))
               (rmax w).
Proof.
  unfold update. destruct (read_points (vis w)) as [v [u|e]]; [|left; reflexivity].
  rewrite get_polar_data_arrays. simpl.
  destruct (0 <? _); [right|left]; reflexivity.
Qed.

Lemma update_safe (evs : Serial) (w : Window) :
  window_safe w -> window_safe (fst (update (arrive evs w))).
Proof.
  unfold window_safe. intros H. rewrite update_vis. simpl.
  apply read_points_preserves.
  - exact in_range_ser.
  - intros self raw _. apply in_range_line.
  - apply feed_preserves; [exact in_range_ser| |exact H].
    apply Forall_forall. auto.
Qed.




(** * Further properties of the read loop *)

(** ** What a pass keeps *)

Lemma process_line_keeps (self : LidarVisualiser) (raw : string) :
  let self' := fst (process_line self (PyStr.strip raw)) in
  (exists new, Dict.keys (points self') = Dict.keys (points self) ++ new) /\
  point_count self <= point_count self' /\
  Dict.len (points self') - Dict.len (points self)
  <= point_count self' - point_count self.
Proof.
  destruct (process_line_cases self raw) as [->|(b & d & c & _ & _ & ->)].
  - split; [exists []; rewrite app_nil_r; reflexivity|lia].
  - simpl. split.
    + destruct (set_keys b (d, c) (points self)) as [->|[-> _]].
      * exists []. rewrite app_nil_r. reflexivity.
      * exists [b]. reflexivity.
    + split; [lia|].
      destruct (set_keys b (d, c) (points self)) as [E|[E _]];
        apply (f_equal (@List.length _)) in E; unfold Dict.keys in E;
        rewrite ?length_app, !length_map in E; unfold Dict.len; simpl in E; lia.
Qed.

Lemma drain_keeps (pending : Serial) (self : LidarVisualiser) :
  let self' := snd (fst (drain pending self)) in
  (exists new, Dict.keys (points self') = Dict.keys (points self) ++ new) /\
  point_count self <= point_count self' /\
  Dict.len (points self') - Dict.len (points self)
  <= point_count self' - point_count self.
Proof.
  revert self. induction pending as [|[raw|] pending IH]; intros self; simpl.
  - split; [exists []; rewrite app_nil_r; reflexivity|lia].
  - pose proof (process_line_keeps self raw) as Hl. simpl in Hl.
    destruct (process_line self (PyStr.strip raw)) as [s1 [u|e]]; simpl in Hl.
    + specialize (IH s1). simpl in IH.
      destruct Hl as ((n1 & E1) & H1 & H2), IH as ((n2 & E2) & H3 & H4).
      split; [|lia]. exists (n1 ++ n2). rewrite E2, E1, app_assoc. reflexivity.
    + exact Hl.
  - split; [exists []; rewrite app_nil_r; reflexivity|lia].
Qed.

Lemma read_points_state (self : LidarVisualiser) (pending : Serial) :
  ser self = Some pending ->
  fst (read_points self)
  = with_ser (Some (fst (fst (drain pending self))))
             (snd (fst (drain pending self))).
Proof.
  intros H. unfold read_points. rewrite H.
  destruct (drain pending self) as [[rest s1] [[]|]]; reflexivity.
Qed.

(** X1: a call of [read_points] never removes or moves an entry: the
    keys the map had are the first keys it has afterwards, in the same
    order. *)
Theorem read_points_keeps_entries (self : LidarVisualiser) :
  exists new,
    Dict.keys (points (fst (read_points self)))
    = Dict.keys (points self) ++ new.
Proof.
  destruct (ser self) as [pending|] eqn:E.
  - rewrite (read_points_state self pending E). simpl.
    apply (drain_keeps pending self).
  - unfold read_points. rewrite E. exists []. rewrite app_nil_r. reflexivity.
Qed.

(** X2: the lifetime counter never goes down in a call of
    [read_points], and it grows by at least as much as the map does. *)
Theorem point_count_follows_map (self : LidarVisualiser) :
  let self' := fst (read_points self) in
  point_count self <= point_count self' /\
  Dict.len (points self') - Dict.len (points self)
  <= point_count self' - point_count self.
Proof.
  destruct (ser self) as [pending|] eqn:E; simpl.
  - rewrite (read_points_state self pending E). simpl.
    apply (drain_keeps pending self).
  - unfold read_points. rewrite E. simpl. lia.
Qed.

Lemma counted_line (self : LidarVisualiser) (raw : string) :
  counted self -> counted (fst (process_line self (PyStr.strip raw))).
Proof.
  unfold counted. intros H.
  pose proof (process_line_keeps self raw) as H0. cbv zeta in H0.
  destruct H0 as (_ & H1 & H2). lia.
Qed.

(** X3: on every run from a fresh object the number of entries of the
    map is at most the lifetime counter, and neither is negative. *)
Theorem size_at_most_point_count
        (port : string) (baud : Z) (opened : Serial) (arrivals : list Serial) :
  let self := polls arrivals (connected port baud opened) in
  0 <= Dict.len (points self) <= point_count self.
Proof.
  intros self. split; [unfold Dict.len; lia|].
  apply (polls_preserves counted (fun _ => True)).
  - intros s v H; exact H.
  - intros v raw _. apply counted_line.
  - apply Forall_forall. intros evs _. apply Forall_forall. auto.
  - apply connected_safe.
    + intros s v H; exact H.
    + unfold counted, Dict.len. simpl. lia.
    + apply Forall_forall. auto.
Qed.

Lemma keys_distinct_line (self : LidarVisualiser) (raw : string) :
  keys_distinct self -> keys_distinct (fst (process_line self (PyStr.strip raw))).
Proof.
  unfold keys_distinct. intros H.
  destruct (process_line_cases self raw) as [->|(b & d & c & _ & _ & ->)].
  - exact H.
  - simpl. apply set_distinct, H.
Qed.

(** X4: on every run from a fresh object, whatever is received, no two
    keys of the point map are equal floats. *)
Theorem keys_always_distinct
        (port : string) (baud : Z) (opened : Serial) (arrivals : list Serial) :
  distinct (Dict.keys (points (polls arrivals (connected port baud opened)))).
Proof.
  apply (polls_preserves keys_distinct (fun _ => True)).
  - intros s v H; exact H.
  - intros v raw _. apply keys_distinct_line.
  - apply Forall_forall. intros evs _. apply Forall_forall. auto.
  - apply connected_safe.
    + intros s v H; exact H.
    + exact I.
    + apply Forall_forall. auto.
Qed.

(** X5: a line that stores a record counts one point, leaves the
    entries of every other bin as they were, and leaves its own bin with
    exactly the new measurement when the bin had at most one entry. *)
Theorem stored_record_only_touches_its_bin
        (self : LidarVisualiser) (raw : string) (b : float) (v : Z * Z) :
  record_of (max_distance self) raw = Some (b, v) ->
  let self' := fst (process_line self (PyStr.strip raw)) in
  point_count self' = point_count self + 1 /\
  (forall b', PyFloat.eqb b b' = false ->
              entries b' (points self') = entries b' (points self)) /\
  ((List.length (entries b (points self)) <= 1)%nat ->
   entries b (points self') = [v]).
Proof.
  intros Hr. pose proof (process_line_record self raw) as Hp.
  rewrite Hr in Hp. rewrite Hp. simpl.
  split; [reflexivity|]. split.
  - intros b' Hb. rewrite entries_set, Hb. reflexivity.
  - intros Hl. rewrite entries_set.
    apply record_of_bin in Hr. destruct (line_bin_sound raw b Hr) as [_ ->].
    destruct (entries b (points self)) as [|v0 [|v1 vs]];
      simpl in *; try reflexivity; lia.
Qed.

Lemma stored_record_only_touches_its_bin_witness :
  entries (S754_zero false)
          (points (fst (process_line (init "/dev/ttyUSB0" 921600)
                                     (PyStr.strip "0.2,1500,200"))))
  = [(1500, 200)].
Proof.
  apply (proj2 (proj2 (stored_record_only_touches_its_bin
                         (init "/dev/ttyUSB0" 921600) "0.2,1500,200"
                         (S754_zero false) (1500, 200)
                         ltac:(vm_compute; reflexivity)))).
  simpl. lia.
Defined.

(** ** Where a pass ends *)

Lemma parse_fields_raises (p0 p1 p2 : string) (e : exn) :
  parse_fields p0 p1 p2 = Raise e -> e = ValueError \/ e = OverflowError.
Proof.
  unfold parse_fields, bind.
  destruct (py_float p0) as [a|e0] eqn:Ea;
    [|intros H; injection H as <-; left; eapply py_float_raises; eassumption].
  destruct (py_int p1) as [d|e1] eqn:Ed;
    [|intros H; injection H as <-; left; eapply py_int_raises; eassumption].
  destruct (py_int p2) as [c|e2] eqn:Ec;
    [|intros H; injection H as <-; left; eapply py_int_raises; eassumption].
  destruct (angle_bin a) as [b|e3] eqn:Eb; [discriminate|].
  intros H; injection H as <-. eapply angle_bin_raises; eassumption.
Qed.

Lemma process_line_overflows (self : LidarVisualiser) (raw : string) :
  snd (process_line self (PyStr.strip raw))
  = if overflows raw then Raise OverflowError else Ok tt.
Proof.
  unfold overflows, process_line, store_fields.
  destruct (_ || _); [reflexivity|].
  destruct (PyStr.split _ _) as [|p0 [|p1 [|p2 [|? ?]]]]; try reflexivity.
  destruct (parse_fields p0 p1 p2) as [[[b d] c]|e] eqn:E.
  - destruct (_ && _); reflexivity.
  - destruct (parse_fields_raises p0 p1 p2 e E) as [-> | ->]; reflexivity.
Qed.

Lemma drain_with_ser (x : option Serial) (pending : Serial) (self : LidarVisualiser) :
  drain pending (with_ser x self)
  = let '(rest, self', stop) := drain pending self in
    (rest, with_ser x self', stop).
Proof.
  revert self. induction pending as [|[raw|] pending IH]; intros self; simpl;
    try reflexivity.
  assert (process_line (with_ser x self) (PyStr.strip raw)
          = (with_ser x (fst (process_line self (PyStr.strip raw))),
             snd (process_line self (PyStr.strip raw)))) as ->.
  { unfold process_line, store_fields. destruct (_ || _); [reflexivity|].
    destruct (PyStr.split _ _) as [|p0 [|p1 [|p2 [|? ?]]]]; try reflexivity.
    destruct (parse_fields p0 p1 p2) as [[[b d] c]|[]]; try reflexivity.
    simpl max_distance. destruct (_ && _); reflexivity. }
  destruct (process_line self (PyStr.strip raw)) as [s1 [u|e]]; simpl.
  - apply IH.
  - reflexivity.
Qed.

Lemma read_points_with_ser (pending : Serial) (self : LidarVisualiser) :
  read_points (with_ser (Some pending) self)
  = (with_ser (Some (fst (fst (drain pending self))))
              (snd (fst (drain pending self))),
     match snd (drain pending self) with
     | None | Some SerialException => Ok tt
     | Some e => Raise e
     end).
Proof.
  unfold read_points.
  change (ser (with_ser (Some pending) self)) with (Some pending).
  cbv iota. rewrite drain_with_ser.
  destruct (drain pending self) as [[rest s1] [[]|]]; reflexivity.
Qed.

Lemma drain_quiet (evs more : Serial) (self : LidarVisualiser) :
  quiet evs = true ->
  fst (drain evs self) = ([], snd (fst (drain evs self))) /\
  snd (drain evs self) = None /\
  drain (evs ++ more) self = drain more (snd (fst (drain evs self))).
Proof.
  revert self. induction evs as [|[raw|] evs IH]; intros self Hq; simpl in *.
  - auto.
  - apply andb_true_iff in Hq. destruct Hq as [Hr Hq].
    apply negb_true_iff in Hr.
    pose proof (process_line_overflows self raw) as Ho. rewrite Hr in Ho.
    destruct (process_line self (PyStr.strip raw)) as [s1 [u|e]];
      simpl in Ho; [|discriminate].
    apply IH, Hq.
  - discriminate.
Qed.

Lemma drain_stop (ev : read_event) (rest : Serial) (self : LidarVisualiser) :
  stops ev = true ->
  drain (ev :: rest) self
  = (rest, self, Some (match ev with
                       | Failed => SerialException
                       | Received _ => OverflowError
                       end)).
Proof.
  destruct ev as [raw|]; simpl; intros Hs; [|reflexivity].
  pose proof (process_line_overflows self raw) as Ho. rewrite Hs in Ho.
  pose proof (process_line_record self raw) as Hp.
  destruct (record_of (max_distance self) raw) as [[b v]|].
  - rewrite Hp in Ho. discriminate.
  - destruct (process_line self (PyStr.strip raw)) as [s1 [u|e]]; simpl in *.
    + discriminate.
    + injection Ho as ->. subst s1. reflexivity.
Qed.

(** X6: a pass ends at the first event that fails to read or whose line
    overflows.  That event and everything before it are consumed, what
    comes after it stays pending, the object is as after a pass over the
    events before it, and the call returns normally for a read failure
    and raises [OverflowError] for an overflowing line. *)
Theorem read_points_stops_at_first_stop
        (self : LidarVisualiser) (before : Serial) (ev : read_event)
        (after : Serial) :
  quiet before = true -> stops ev = true ->
  read_points (with_ser (Some (before ++ ev :: after)) self)
  = (with_ser (Some after) (fst (read_points (with_ser (Some before) self))),
     match ev with
     | Failed => Ok tt
     | Received _ => Raise OverflowError
     end).
Proof.
  intros Hq Hs. rewrite !read_points_with_ser.
  destruct (drain_quiet before (ev :: after) self Hq) as (H1 & H2 & H3).
  rewrite H3, (drain_stop ev after _ Hs). simpl.
  destruct ev; reflexivity.
Qed.

Lemma read_points_stops_at_first_stop_witness :
  read_points (with_ser (Some ([Received "0.2,1500,200"]
                                 ++ Received "inf,100,200"
                                 :: [Received "0.3,1600,210"]))
                        (init "/dev/ttyUSB0" 921600))
  = (with_ser (Some [Received "0.3,1600,210"])
              (fst (read_points (with_ser (Some [Received "0.2,1500,200"])
                                          (init "/dev/ttyUSB0" 921600)))),
     Raise OverflowError).
Proof.
  apply (read_points_stops_at_first_stop
           (init "/dev/ttyUSB0" 921600) [Received "0.2,1500,200"]
           (Received "inf,100,200") [Received "0.3,1600,210"]).
  - vm_compute. reflexivity.
  - vm_compute. reflexivity.
Defined.

(** X7: when no pending event fails to read and no pending line
    overflows, [read_points] returns normally and leaves nothing
    pending. *)
Theorem read_points_drains_quiet_queue
        (self : LidarVisualiser) (pending : Serial) :
  ser self = Some pending -> quiet pending = true ->
  snd (read_points self) = Ok tt /\ ser (fst (read_points self)) = Some [].
Proof.
  intros Hs Hq. unfold read_points. rewrite Hs.
  destruct (drain_quiet pending [] self Hq) as (H1 & H2 & _).
  destruct (drain pending self) as [[r1 s1] st1]. simpl in H1, H2.
  injection H1 as ->. subst st1. auto.
Qed.

Lemma read_points_drains_quiet_queue_witness :
  snd (read_points (connected "/dev/ttyUSB0" 921600
                              [Received "LD06 booting"; Received "0.2,1500,200"]))
  = Ok tt /\
  ser (fst (read_points (connected "/dev/ttyUSB0" 921600
                                   [Received "LD06 booting"; Received "0.2,1500,200"])))
  = Some [].
Proof.
  apply (read_points_drains_quiet_queue
           (connected "/dev/ttyUSB0" 921600
                      [Received "LD06 booting"; Received "0.2,1500,200"])
           [Received "LD06 booting"; Received "0.2,1500,200"]).
  - reflexivity.
  - vm_compute. reflexivity.
Defined.



(** ** White space around a line *)

Lemma rstrip_all_space (t : string) :
  all_space t = true -> PyStr.rstrip PyStr.is_space t = EmptyString.
Proof.
  induction t as [|c t IH]; simpl; [reflexivity|]. intros H.
  apply andb_true_iff in H. destruct H as [Hc Ht].
  rewrite (IH Ht), Hc. reflexivity.
Qed.

Lemma rstrip_app_space (s t : string) :
  all_space t = true ->
  PyStr.rstrip PyStr.is_space (s ++ t) = PyStr.rstrip PyStr.is_space s.
Proof.
  intros Ht. induction s as [|c s IH]; simpl.
  - apply rstrip_all_space, Ht.
  - rewrite IH. reflexivity.
Qed.

Lemma lstrip_space_app (t s : string) :
  all_space t = true ->
  PyStr.lstrip PyStr.is_space (t ++ s) = PyStr.lstrip PyStr.is_space s.
Proof.
  induction t as [|c t IH]; simpl; [reflexivity|]. intros H.
  apply andb_true_iff in H. destruct H as [Hc Ht].
  rewrite Hc. apply IH, Ht.
Qed.

Lemma lstrip_all_space (t : string) :
  all_space t = true -> PyStr.lstrip PyStr.is_space t = EmptyString.
Proof.
  induction t as [|c t IH]; simpl; [reflexivity|]. intros H.
  apply andb_true_iff in H. destruct H as [Hc Ht].
  rewrite Hc. apply IH, Ht.
Qed.

Lemma strip_app_space (s t : string) :
  all_space t = true -> PyStr.strip (s ++ t) = PyStr.strip s.
Proof.
  intros Ht. unfold PyStr.strip. induction s as [|c s IH]; simpl.
  - rewrite (lstrip_all_space t Ht). reflexivity.
  - destruct (PyStr.is_space c); [exact IH|].
    apply (rstrip_app_space (String c s) t Ht).
Qed.

(** X9: white space around a received line (carriage return, line feed,
    blanks, tabs) changes nothing of what the read loop does with it. *)
Theorem surrounding_space_ignored
        (self : LidarVisualiser) (lead raw trail : string) (rest : Serial) :
  all_space lead = true -> all_space trail = true ->
  drain (Received (lead ++ raw ++ trail) :: rest) self
  = drain (Received raw :: rest) self.
Proof.
  intros Hl Ht. simpl.
  assert (PyStr.strip (lead ++ raw ++ trail) = PyStr.strip raw) as ->;
    [|reflexivity].
  unfold PyStr.strip. rewrite (lstrip_space_app lead _ Hl).
  apply (strip_app_space raw trail Ht).
Qed.

Lemma surrounding_space_ignored_witness :
  drain [Received (" " ++ "0.2,1500,200" ++ String "013" (String "010" ""))]
        (init "/dev/ttyUSB0" 921600)
  = drain [Received "0.2,1500,200"] (init "/dev/ttyUSB0" 921600).
Proof.
  apply (surrounding_space_ignored (init "/dev/ttyUSB0" 921600) " "
           "0.2,1500,200" (String "013" (String "010" "")) []).
  - reflexivity.
  - reflexivity.
Defined.

(** ** Angles that are no finite number *)

Lemma split_three_not_empty (line p0 p1 p2 : string) :
  PyStr.split ","%char line = [p0; p1; p2] -> String.eqb line EmptyString = false.
Proof. destruct line; [discriminate|reflexivity]. Qed.

(** X10: among the lines whose three fields parse, one whose angle is
    NaN is skipped silently, and one whose doubled angle is infinite
    makes the loop body raise [OverflowError]; neither changes the
    object. *)
Theorem non_finite_angles
        (self : LidarVisualiser) (line p0 p1 p2 : string) (a : float) (d c : Z) :
  PyStr.startswith "LD06" line = false ->
  PyStr.split ","%char line = [p0; p1; p2] ->
  py_float p0 = Ok a -> py_int p1 = Ok d -> py_int p2 = Ok c ->
  (a = S754_nan -> process_line self line = (self, Ok tt)) /\
  (forall s, PyFloat.mul a (PyFloat.of_int 2) = S754_infinity s ->
             process_line self line = (self, Raise OverflowError)).
Proof.
  intros Hb Hs Ha Hd Hc. unfold process_line.
  rewrite (split_three_not_empty line p0 p1 p2 Hs), Hb, Hs. simpl orb.
  unfold store_fields, parse_fields, bind. rewrite Ha, Hd, Hc.
  split.
  - intros ->. reflexivity.
  - intros s Hm. unfold angle_bin, bind. rewrite Hm. reflexivity.
Qed.

Lemma non_finite_angles_witness :
  process_line (init "/dev/ttyUSB0" 921600) "1e308,100,200"
  = (init "/dev/ttyUSB0" 921600, Raise OverflowError).
Proof.
  apply (proj2 (non_finite_angles (init "/dev/ttyUSB0" 921600)
                  "1e308,100,200" "1e308" "100" "200"
                  (S754_finite false 5010420900022432 971) 100 200
                  ltac:(reflexivity) ltac:(reflexivity)
                  ltac:(vm_compute; reflexivity)
                  ltac:(vm_compute; reflexivity)
                  ltac:(vm_compute; reflexivity)) false).
  vm_compute. reflexivity.
Defined.

(** ** The radial limit *)

Lemma lt_le_lt (a b c : float) :
  PyFloat.ltb a b = true -> PyFloat.leb b c = true -> PyFloat.ltb a c = true.
Proof.
  unfold PyFloat.ltb, PyFloat.leb, SFltb, SFleb.
  destruct a as [[]|[]| |[] ma ea], b as [[]|[]| |[] mb eb];
    simpl; try discriminate;
    destruct c as [[]|[]| |[] mc ec]; simpl; try discriminate; try reflexivity;
    fold (Pos.compare ma mb) (Pos.compare mb mc) (Pos.compare ma mc);
    order_cases; simpl; intros; subst; try discriminate; try reflexivity; try lia.
Qed.

Lemma le_lt_le (a b c : float) :
  PyFloat.leb a b = true -> PyFloat.ltb b c = true -> PyFloat.leb a c = true.
Proof.
  unfold PyFloat.ltb, PyFloat.leb, SFltb, SFleb.
  destruct a as [[]|[]| |[] ma ea], b as [[]|[]| |[] mb eb];
    simpl; try discriminate;
    destruct c as [[]|[]| |[] mc ec]; simpl; try discriminate; try reflexivity;
    fold (Pos.compare ma mb) (Pos.compare mb mc) (Pos.compare ma mc);
    order_cases; simpl; intros; subst; try discriminate; try reflexivity; try lia.
Qed.

Lemma scaled_below_all (m : Z) : 0 <= m <= 8000 -> scaled_below m = true.
Proof.
  intros Hm.
  assert (forallb scaled_below (map Z.of_nat (seq 0 (Z.to_nat 8001))) = true) as H
      by (vm_compute; reflexivity).
  rewrite forallb_forall in H. apply H.
  apply in_map_iff. exists (Z.to_nat m). split; [lia|].
  apply in_seq. lia.
Qed.

Lemma auto_scale_bounded (distances : list Z) (limit : float) :
  Forall (fun d => 0 <= d <= 8000) distances ->
  PyFloat.leb (PyFloat.of_int 4000) limit = true ->
  PyFloat.leb limit (PyFloat.of_int 8000) = true ->
  let limit' := auto_scale distances limit in
  (limit' = limit \/ PyFloat.ltb limit limit' = true) /\
  PyFloat.leb (PyFloat.of_int 4000) limit' = true /\
  PyFloat.leb limit' (PyFloat.of_int 8000) = true.
Proof.
  intros Hd Hlo Hhi. unfold auto_scale.
  pose proof (np_max_bounds distances 0 8000 ltac:(lia) Hd) as Hm.
  destruct (PyFloat.ltb limit (PyFloat.of_int (np_max distances))) eqn:E.
  - pose proof (scaled_above_all _ Hm) as Ha. unfold scaled_above in Ha.
    pose proof (scaled_below_all _ Hm) as Hb. unfold scaled_below in Hb.
    pose proof (lt_le_lt _ _ _ E Ha) as Hlt.
    split; [right; exact Hlt|]. split; [|exact Hb].
    apply (le_lt_le _ limit _ Hlo Hlt).
  - auto.
Qed.

Lemma update_limit (evs : Serial) (w : Window) :
  window_safe w -> limit_bounded w ->
  let w' := fst (update (arrive evs w)) in
  (rmax w' = rmax w \/ PyFloat.ltb (rmax w) (rmax w') = true) /\
  limit_bounded w'.
Proof.
  intros Hs [Hlo Hhi]. pose proof (update_safe evs w Hs) as [[_ Hv] _].
  rewrite update_vis in Hv. cbv zeta. unfold limit_bounded.
  destruct (update_rmax (arrive evs w)) as [-> | ->]; simpl rmax.
  - auto.
  - apply auto_scale_bounded; [|assumption|assumption].
    apply Forall_map. exact Hv.
Qed.

Lemma ticks_limit (arrivals : list Serial) (w : Window) :
  window_safe w -> limit_bounded w ->
  rises (map rmax (w :: ticks arrivals w)) /\
  Forall limit_bounded (w :: ticks arrivals w).
Proof.
  revert w. induction arrivals as [|evs arrivals IH]; intros w Hs Hb.
  - split; [exact I|]. constructor; [exact Hb|constructor].
  - cbn [ticks].
    destruct (update_limit evs w Hs Hb) as [Hstep Hb'].
    destruct (IH _ (update_safe evs w Hs) Hb') as [Hr Hf].
    split.
    + split; assumption.
    + constructor; assumption.
Qed.

(** X11: along every run of ticks from the window [main] sets up, the
    radial limit stays between 4000 and 8000, and each tick leaves it as
    it was or sets it strictly higher. *)
Theorem radial_limit_bounded_and_rising
        (port : string) (opened : Serial) (arrivals : list Serial) :
  let run := main_window port opened :: ticks arrivals (main_window port opened) in
  rises (map rmax run) /\ Forall limit_bounded run.
Proof.
  apply ticks_limit.
  - apply (connected_safe in_range (fun _ => True)).
    + exact in_range_ser.
    + split; [reflexivity|constructor].
    + apply Forall_forall. auto.
  - split; vm_compute; reflexivity.
Qed.

(** ** What a tick shows *)





(** ** The start of [main] *)

Lemma list_index_In {A : Type} (l : list A) (i : Z) (x : A) :
  list_index l i = Some x -> In x l.
Proof.
  unfold list_index.
  destruct (_ && _); [apply nth_error_In|].
  destruct (_ && _); [apply nth_error_In|discriminate].
Qed.

Lemma select_port_cases (ports argv : list string) (typed : string) :
  select_port ports argv typed = inr (Exit 1) \/
  exists port,
    select_port ports argv typed = inl port /\ ports <> [] /\
    (nth_error argv 1 = Some port \/
     ((List.length argv <= 1)%nat /\ In port ports)).
Proof.
  unfold select_port. destruct ports as [|p ports]; [left; reflexivity|].
  destruct argv as [|a0 [|given argv]].
  - destruct ports as [|q ports].
    + right. exists p. repeat split; [discriminate|]. right. simpl. auto.
    + destruct (py_int typed) as [idx|e] eqn:E.
      * destruct (list_index (p :: q :: ports) idx) as [x|] eqn:Ei; [|auto].
        right. exists x. repeat split; [discriminate|]. right.
        split; [simpl; lia|]. eapply list_index_In; eassumption.
      * rewrite (py_int_raises typed e E). auto.
  - destruct ports as [|q ports].
    + right. exists p. repeat split; [discriminate|]. right. simpl. auto.
    + destruct (py_int typed) as [idx|e] eqn:E.
      * destruct (list_index (p :: q :: ports) idx) as [x|] eqn:Ei; [|auto].
        right. exists x. repeat split; [discriminate|]. right.
        split; [simpl; lia|]. eapply list_index_In; eassumption.
      * rewrite (py_int_raises typed e E). auto.
  - right. exists given. repeat split; [discriminate|]. left. reflexivity.
Qed.

(** X14: the start of [main] either exits with code 1 or starts the
    animation; no exception of the port selection escapes.  When the
    animation starts, some port was listed, the serial port opened, the
    window is the one [main] sets up for the chosen port, and that port
    is [sys.argv[1]] if given and otherwise one of the listed ports. *)
Theorem main_start_outcomes
        (ports argv : list string) (typed : string) (opened : option Serial) :
  main_start ports argv typed opened = Exit 1 \/
  exists port s,
    main_start ports argv typed opened = Running (main_window port s) /\
    opened = Some s /\ ports <> [] /\
    (nth_error argv 1 = Some port \/
     ((List.length argv <= 1)%nat /\ In port ports)).
Proof.
  unfold main_start.
  destruct (select_port_cases ports argv typed) as [-> | (port & -> & Hp & Hc)].
  - left; reflexivity.
  - destruct opened as [s|]; [|left; reflexivity].
    right. exists port, s. auto.
Qed.

(** X15: with at least two listed ports and no port on the command
    line, a typed integer [i] selects [ports[i]] for [0 <= i < n] and
    [ports[n + i]] for [-n <= i < 0], that is the entry at [i mod n];
    any other integer makes [main] exit with code 1. *)
Theorem typed_index_selects
        (ports argv : list string) (typed : string) (i : Z) :
  (List.length argv <= 1)%nat -> (2 <= List.length ports)%nat ->
  py_int typed = Ok i ->
  let n := Z.of_nat (List.length ports) in
  select_port ports argv typed
  = if (- n <=? i) && (i <? n)
    then inl (nth (Z.to_nat (i mod n)) ports EmptyString)
    else inr (Exit 1).
Proof.
  intros Ha Hp Hi n.
  assert (select_port ports argv typed
          = match list_index ports i with
            | Some p => inl p
            | None => inr (Exit 1)
            end) as ->.
  { unfold select_port. destruct ports as [|p [|q ports]]; simpl in Hp; try lia.
    destruct argv as [|a0 [|a1 argv]]; simpl in Ha; try lia; rewrite Hi; reflexivity. }
  unfold list_index. fold n.
  assert (0 < n) by (unfold n; lia).
  destruct ((0 <=? i) && (i <? n)) eqn:E1.
  - apply andb_true_iff in E1. destruct E1 as [E1 E2].
    apply Z.leb_le in E1. apply Z.ltb_lt in E2.
    assert ((- n <=? i) && (i <? n) = true) as ->
        by (apply andb_true_iff; split; [apply Z.leb_le|apply Z.ltb_lt]; lia).
    rewrite Z.mod_small by lia.
    rewrite (nth_error_nth' ports EmptyString) by lia. reflexivity.
  - destruct ((- n <=? i) && (i <? 0)) eqn:E2.
    + apply andb_true_iff in E2. destruct E2 as [E2 E3].
      apply Z.leb_le in E2. apply Z.ltb_lt in E3.
      assert ((- n <=? i) && (i <? n) = true) as ->
          by (apply andb_true_iff; split; [apply Z.leb_le|apply Z.ltb_lt]; lia).
      assert (i mod n = n + i) as ->.
      { symmetry. apply (Z.mod_unique i n (-1) (n + i)); lia. }
      rewrite (nth_error_nth' ports EmptyString) by lia. reflexivity.
    + assert ((- n <=? i) && (i <? n) = false) as ->; [|reflexivity].
      apply andb_false_iff. apply andb_false_iff in E1, E2.
      rewrite !Z.leb_gt, !Z.ltb_ge in *. lia.
Qed.

Lemma typed_index_selects_witness :
  select_port ["/dev/ttyUSB0"%string; "/dev/ttyUSB1"%string; "/dev/ttyACM0"%string]
              ["visualise.py"%string] "-1"
  = inl "/dev/ttyACM0"%string.
Proof.
  apply (typed_index_selects
           ["/dev/ttyUSB0"%string; "/dev/ttyUSB1"%string; "/dev/ttyACM0"%string]
           ["visualise.py"%string] "-1" (-1)).
  - simpl. lia.
  - simpl. lia.
  - vm_compute. reflexivity.
Defined.

(** ** A pass that ends early *)

(** X16: an event that ends a pass only delays what follows it.  After
    the next call of [read_points] the object is as if the event had not
    been there and everything had been read in one call: the lines after
    a read failure or after an overflowing line are not lost. *)
Theorem stop_only_delays
        (self : LidarVisualiser) (pending before : Serial) (ev : read_event)
        (after evs : Serial) (rest : list Serial) :
  ser self = Some pending -> quiet (pending ++ before) = true ->
  stops ev = true ->
  polls ((before ++ ev :: after) :: evs :: rest) self
  = polls ((before ++ after ++ evs) :: rest) self.
Proof.
  intros Hs Hq Hstop. cbn [polls]. f_equal.
  unfold feed at 2 3. rewrite Hs, !read_points_with_ser, !app_assoc.
  rewrite <- (app_assoc (pending ++ before) after evs).
  destruct (drain_quiet (pending ++ before) (ev :: after) self Hq) as (_ & _ & H3).
  destruct (drain_quiet (pending ++ before) (after ++ evs) self Hq) as (_ & _ & H4).
  rewrite H3, H4, (drain_stop ev after _ Hstop).
  cbn [fst snd]. unfold feed. cbn [ser with_ser].
  change (with_ser (Some (after ++ evs))
            (with_ser (Some after) (snd (fst (drain (pending ++ before) self)))))
    with (with_ser (Some (after ++ evs))
                   (snd (fst (drain (pending ++ before) self)))).
  rewrite read_points_with_ser. reflexivity.
Qed.

Lemma stop_only_delays_witness :
  polls [[Received "0.2,1500,200"] ++ Failed :: [Received "0.3,1600,210"]; []]
        (connected "/dev/ttyUSB0" 921600 [])
  = polls [[Received "0.2,1500,200"] ++ [Received "0.3,1600,210"] ++ []]
          (connected "/dev/ttyUSB0" 921600 []).
Proof.
  apply (stop_only_delays (connected "/dev/ttyUSB0" 921600 []) []
           [Received "0.2,1500,200"] Failed [Received "0.3,1600,210"] [] []).
  - reflexivity.
  - vm_compute. reflexivity.
  - reflexivity.
Defined.

(** ** The bins of one rotation *)

Lemma float_eq_dec (x y : float) : {x = y} + {x <> y}.
Proof.
  decide equality; try apply Bool.bool_dec;
    try apply Z.eq_dec; apply Pos.eq_dec.
Defined.

(** X17: quantising one of the 720 bins of a rotation gives that bin
    back, so an angle that already is a multiple of 0.5 in [0, 360) is
    stored under itself. *)
Theorem legal_bin_is_its_own_bin (b : float) :
  In b legal_bins -> angle_bin b = Ok b.
Proof.
  intros Hin.
  assert (forallb (fun b => match angle_bin b with
                            | Ok b' => if float_eq_dec b' b then true else false
                            | Raise _ => false
                            end) legal_bins = true) as H
      by (vm_compute; reflexivity).
  rewrite forallb_forall in H. specialize (H b Hin).
  destruct (angle_bin b) as [b'|]; [|discriminate].
  destruct (float_eq_dec b' b) as [->|]; [reflexivity|discriminate].
Qed.

Lemma legal_bin_is_its_own_bin_witness :
  angle_bin (S754_finite false 4503599627370496 (-53))
  = Ok (S754_finite false 4503599627370496 (-53)).
Proof.
  apply (legal_bin_is_its_own_bin (S754_finite false 4503599627370496 (-53))).
  right. left. vm_compute. reflexivity.
Defined.
